(** * The BCM2835 CPU frequency driver (drivers/cpufreq/bcm2835-cpufreq.c)

    A shallow embedding of the driver: the clock-property channel
    ([bcm2835_cpufreq_clock_property]), the two unit-converting wrappers
    ([bcm2835_cpufreq_set_clock], [bcm2835_cpufreq_get_clock]) and the three
    cpufreq entry points ([bcm2835_cpufreq_driver_init],
    [bcm2835_cpufreq_driver_target_index], [bcm2835_cpufreq_driver_get]).

    The driver's three static variables are threaded through a small state
    monad.  Everything the driver calls but does not define (the firmware
    mailbox, the trusted-display flags, the cpufreq core) is a field of a
    [platform] record, so that every theorem holds for every behaviour of
    these collaborators. *)

From Stdlib Require Import ZArith Lia List Bool Sorted.
From stdpp Require Import base list vector.
Import ListNotations.
Open Scope Z_scope.

(** ** 32-bit machine arithmetic *)

Module Word32.

Definition modulus : Z := 2 ^ 32.

(** Conversion to [u32] / [unsigned int]: reduction modulo 2^32. *)
Definition to_u32 (z : Z) : Z := z mod modulus.

(** Conversion to [int]: the two's complement reading of the low 32 bits. *)
Definition to_int (z : Z) : Z := (z + 2 ^ 31) mod modulus - 2 ^ 31.

(** [a * b] on two [int] operands; the kernel is built so that signed
    overflow wraps. *)
Definition int_mul (a b : Z) : Z := to_int (a * b).

(** The largest value [x / 1000] can take for a [u32] [x]. *)
Definition max_khz : Z := 4294967.

End Word32.
Import Word32.

(** ** Constants of the kernel headers

    [CPUFREQ_TABLE_END] (linux/cpufreq.h) and the errno values are defined
    outside the driver; the development is parametric in them. *)

Class KernelHeaders := {
  CPUFREQ_TABLE_END : Z;
  ENODEV : Z;
  EINVAL : Z
}.

(** [#define VCMSG_ID_ARM_CLOCK 0x000000003] *)
Definition VCMSG_ID_ARM_CLOCK : Z := 3.

(** The four property tags the driver uses (enum rpi_firmware_property_tag). *)
Inductive rpi_firmware_property_tag :=
| RPI_FIRMWARE_GET_CLOCK_RATE
| RPI_FIRMWARE_GET_MAX_CLOCK_RATE
| RPI_FIRMWARE_GET_MIN_CLOCK_RATE
| RPI_FIRMWARE_SET_CLOCK_RATE.

(** The anonymous [struct { u32 id; u32 val; } packet]. *)
Record packet := { packet_id : Z; packet_val : Z }.

(** ** Observable events

    [Request] records an entry into [bcm2835_cpufreq_clock_property] with
    the value found behind [val]; [Property] records a call of
    [rpi_firmware_property] with the packet handed to the mailbox.  The log
    is ghost state: the driver never reads it, the collaborators may. *)
Inductive event :=
| Request (tag : rpi_firmware_property_tag) (id val : Z)
| Property (tag : rpi_firmware_property_tag) (p : packet).

Definition trace := list event.

Definition is_property (e : event) : bool :=
  match e with Property _ _ => true | Request _ _ _ => false end.

Definition is_request (e : event) : bool :=
  match e with Request _ _ _ => true | Property _ _ => false end.

(** The part of [struct cpufreq_policy] the driver passes around. *)
Record cpufreq_policy := {
  cur : Z;
  freq_table_attached : bool;
  cpuinfo_transition_latency : Z
}.

(** ** External collaborators

    Each oracle may depend on everything that happened so far.  An oracle
    answers with any integer; the driver reduces it to 32 bits where it
    reads it from a [u32]. *)
Record platform := {
  (** whether the kernel is built with [CONFIG_MYTEE] *)
  CONFIG_MYTEE : bool;
  (** [rpi_firmware_get(NULL)] returns a non-NULL handle *)
  rpi_firmware_get : trace -> bool;
  (** [rpi_firmware_property(fw, tag, &packet, sizeof(packet))]: the return
      code and the packet as the firmware leaves it *)
  rpi_firmware_property :
    trace -> rpi_firmware_property_tag -> packet -> Z * packet;
  (** the words behind [MYTEE_TRUSTED_FB_MMAP_FLAG_VIRT] and
      [MYTEE_TRUSTED_FB_WRITE_FLAG_VIRT] *)
  trusted_display_mmap_flag : trace -> Z;
  trusted_display_write_flag : trace -> Z;
  (** the indeterminate content of a [u32] local declared without an
      initialiser *)
  uninitialised_u32 : trace -> Z;
  (** [cpufreq_generic_init(policy, table, transition_latency)] *)
  cpufreq_generic_init :
    cpufreq_policy -> vec Z 3 -> Z -> Z * cpufreq_policy
}.

(** ** Driver state

    [min_frequency], [max_frequency] and [bcm2835_freq_table] are the
    driver's statics; of each table entry only [.frequency] is modelled,
    the only field the driver touches. *)
Record world := {
  min_frequency : Z;
  max_frequency : Z;
  bcm2835_freq_table : vec Z 3;
  log : trace
}.

(** Statics are zero-initialised at module load. *)
Definition boot : world :=
  {| min_frequency := 0; max_frequency := 0;
     bcm2835_freq_table := [# 0; 0; 0]; log := [] |}.

(** ** A state monad over [world] *)

Definition drv (A : Type) : Type := world -> A * world.

Definition ret {A} (a : A) : drv A := fun w => (a, w).

Definition bind {A B} (m : drv A) (k : A -> drv B) : drv B :=
  fun w => let (a, w') := m w in k a w'.

Declare Scope drv_scope.
Delimit Scope drv_scope with drv.
Notation "x <- m ;; k" := (bind m (fun x => k))
  (at level 100, m at next level, right associativity) : drv_scope.
Notation "m ;;; k" := (bind m (fun _ => k))
  (at level 100, right associativity) : drv_scope.
Open Scope drv_scope.

Definition gets {A} (f : world -> A) : drv A := fun w => (f w, w).

Definition emit (e : event) : drv unit := fun w =>
  (tt, {| min_frequency := min_frequency w;
          max_frequency := max_frequency w;
          bcm2835_freq_table := bcm2835_freq_table w;
          log := log w ++ [e] |}).

Definition set_min_frequency (v : Z) : drv unit := fun w =>
  (tt, {| min_frequency := v;
          max_frequency := max_frequency w;
          bcm2835_freq_table := bcm2835_freq_table w;
          log := log w |}).

Definition set_max_frequency (v : Z) : drv unit := fun w =>
  (tt, {| min_frequency := min_frequency w;
          max_frequency := v;
          bcm2835_freq_table := bcm2835_freq_table w;
          log := log w |}).

(** [bcm2835_freq_table[i].frequency = v] *)
Definition set_table_frequency (i : fin 3) (v : Z) : drv unit := fun w =>
  (tt, {| min_frequency := min_frequency w;
          max_frequency := max_frequency w;
          bcm2835_freq_table := vinsert i v (bcm2835_freq_table w);
          log := log w |}).

(** ** The driver *)

Section Driver.

Context {K : KernelHeaders} (P : platform).

(** The test of the [CONFIG_MYTEE] block: compiled in, and one of the two
    trusted-display flags reads [0x1].  [mytee_up_priv] and
    [mytee_down_priv], which bracket the read, touch nothing the driver
    holds. *)
Definition gate_blocked (t : trace) : bool :=
  CONFIG_MYTEE P &&
  ((to_u32 (trusted_display_mmap_flag P t) =? 1) ||
   (to_u32 (trusted_display_write_flag P t) =? 1)).

(** One mailbox transaction, recorded in the log.  The handle the channel
    fetches with [rpi_firmware_get(NULL)] is only passed on to the mailbox,
    whose oracle sees the whole log. *)
Definition firmware_property (tag : rpi_firmware_property_tag)
    (p : packet) : drv (Z * packet) :=
  t <- gets log ;;
  emit (Property tag p) ;;;
  ret (rpi_firmware_property P t tag p).

(** [static int bcm2835_cpufreq_clock_property(u32 tag, u32 id, u32 *val)]:
    [val] is the content of [*val] on entry, the result pairs the return
    code with the content of [*val] on exit. *)
Definition bcm2835_cpufreq_clock_property
    (tag : rpi_firmware_property_tag) (id val : Z) : drv (Z * Z) :=
  emit (Request tag id val) ;;;
  blocked <- gets (fun w => gate_blocked (log w)) ;;
  if blocked then ret (0, val)
  else
    reply <- firmware_property tag {| packet_id := id; packet_val := val |} ;;
    let (r, answer) := reply in
    if negb (r =? 0) then ret (r, val)
    else ret (0, to_u32 (packet_val answer)).

(** [static uint32_t bcm2835_cpufreq_set_clock(int cur_rate, int arm_rate)] *)
Definition bcm2835_cpufreq_set_clock (cur_rate arm_rate : Z) : drv Z :=
  let rate := to_u32 (int_mul arm_rate 1000) in
  reply <- bcm2835_cpufreq_clock_property
             RPI_FIRMWARE_SET_CLOCK_RATE VCMSG_ID_ARM_CLOCK rate ;;
  let (r, rate) := reply in
  if negb (r =? 0) then ret 0
  else ret (rate / 1000).

(** [static uint32_t bcm2835_cpufreq_get_clock(int tag)]; [u32 rate] has
    no initialiser. *)
Definition bcm2835_cpufreq_get_clock
    (tag : rpi_firmware_property_tag) : drv Z :=
  rate <- gets (fun w => to_u32 (uninitialised_u32 P (log w))) ;;
  reply <- bcm2835_cpufreq_clock_property tag VCMSG_ID_ARM_CLOCK rate ;;
  let (r, rate) := reply in
  if negb (r =? 0) then ret 0
  else ret (rate / 1000).

(** [static int bcm2835_cpufreq_driver_init(struct cpufreq_policy *policy)];
    the result pairs the return code with the policy on exit. *)
Definition bcm2835_cpufreq_driver_init
    (policy : cpufreq_policy) : drv (Z * cpufreq_policy) :=
  let transition_latency := 355000 in
  fw <- gets (fun w => rpi_firmware_get P (log w)) ;;
  if negb fw then ret (- ENODEV, policy)
  else
    lo <- bcm2835_cpufreq_get_clock RPI_FIRMWARE_GET_MIN_CLOCK_RATE ;;
    set_min_frequency lo ;;;
    hi <- bcm2835_cpufreq_get_clock RPI_FIRMWARE_GET_MAX_CLOCK_RATE ;;
    set_max_frequency hi ;;;
    lo <- gets min_frequency ;;
    hi <- gets max_frequency ;;
    (if lo =? hi then
       set_table_frequency 0%fin lo ;;;
       set_table_frequency 1%fin CPUFREQ_TABLE_END
     else
       set_table_frequency 0%fin lo ;;;
       set_table_frequency 1%fin hi ;;;
       set_table_frequency 2%fin CPUFREQ_TABLE_END) ;;;
    table <- gets bcm2835_freq_table ;;
    ret (cpufreq_generic_init P policy table transition_latency).

(** [static int bcm2835_cpufreq_driver_target_index(struct cpufreq_policy
    *policy, unsigned int state)] *)
Definition bcm2835_cpufreq_driver_target_index
    (policy : cpufreq_policy) (state : Z) : drv Z :=
  lo <- gets min_frequency ;;
  hi <- gets max_frequency ;;
  let target_freq := if state =? 0 then lo else hi in
  now <- bcm2835_cpufreq_set_clock (to_int (cur policy)) (to_int target_freq) ;;
  if now =? 0 then ret (- EINVAL)
  else ret 0.

(** [static unsigned int bcm2835_cpufreq_driver_get(unsigned int cpu)] *)
Definition bcm2835_cpufreq_driver_get (cpu : Z) : drv Z :=
  actual_rate <- bcm2835_cpufreq_get_clock RPI_FIRMWARE_GET_CLOCK_RATE ;;
  lo <- gets min_frequency ;;
  hi <- gets max_frequency ;;
  ret (if actual_rate <=? lo then lo else hi).

End Driver.

(** ** Vocabulary for the statements *)

(** The driver's statics, without the ghost log. *)
Definition driver_state (w : world) : Z * Z * vec Z 3 :=
  (min_frequency w, max_frequency w, bcm2835_freq_table w).

(** [w] after the events [es] and nothing else. *)
Definition extend (w : world) (es : list event) : world :=
  {| min_frequency := min_frequency w;
     max_frequency := max_frequency w;
     bcm2835_freq_table := bcm2835_freq_table w;
     log := log w ++ es |}.

(** Number of mailbox transactions in a log. *)
Definition transport_calls (t : trace) : nat :=
  length (List.filter is_property t).

(** Number of channel requests in a log. *)
Definition channel_requests (t : trace) : nat :=
  length (List.filter is_request t).

(** The request and the packet for the ARM clock, the only clock the driver
    asks about. *)
Definition arm_request (tag : rpi_firmware_property_tag) (val : Z) : event :=
  Request tag VCMSG_ID_ARM_CLOCK val.

Definition arm_packet (val : Z) : packet :=
  {| packet_id := VCMSG_ID_ARM_CLOCK; packet_val := val |}.

(** The gate, as a request for [tag] carrying [val] meets it when the log
    is [t]. *)
Definition blocked_at (P : platform) (tag : rpi_firmware_property_tag)
    (val : Z) (t : trace) : bool :=
  gate_blocked P (t ++ [arm_request tag val]).

(** What the mailbox replies to that request, should it get there. *)
Definition transport_reply (P : platform) (tag : rpi_firmware_property_tag)
    (val : Z) (t : trace) : Z * packet :=
  rpi_firmware_property P (t ++ [arm_request tag val]) tag (arm_packet val).

(** The request passes the gate and the mailbox replies with return code
    [r], leaving [hz] in the packet. *)
Definition answered (P : platform) (tag : rpi_firmware_property_tag)
    (val : Z) (t : trace) (r hz : Z) : Prop :=
  blocked_at P tag val t = false /\
  fst (transport_reply P tag val t) = r /\
  packet_val (snd (transport_reply P tag val t)) = hz.

(** The uninitialised word [bcm2835_cpufreq_get_clock] finds in [rate]. *)
Definition stale_rate (P : platform) (w : world) : Z :=
  to_u32 (uninitialised_u32 P (log w)).

(** The same three notions for the GET request that
    [bcm2835_cpufreq_get_clock] issues in state [w]. *)
Definition get_blocked (P : platform) (tag : rpi_firmware_property_tag)
    (w : world) : Prop :=
  blocked_at P tag (stale_rate P w) (log w) = true.

Definition get_answered (P : platform) (tag : rpi_firmware_property_tag)
    (w : world) (r hz : Z) : Prop :=
  answered P tag (stale_rate P w) (log w) r hz.

Definition get_failed (P : platform) (tag : rpi_firmware_property_tag)
    (w : world) : Prop :=
  blocked_at P tag (stale_rate P w) (log w) = false /\
  fst (transport_reply P tag (stale_rate P w) (log w)) <> 0.

(** [P] with another firmware behind the mailbox. *)
Definition with_firmware (P : platform)
    (f : trace -> rpi_firmware_property_tag -> packet -> Z * packet)
    : platform :=
  {| CONFIG_MYTEE := CONFIG_MYTEE P;
     rpi_firmware_get := rpi_firmware_get P;
     rpi_firmware_property := f;
     trusted_display_mmap_flag := trusted_display_mmap_flag P;
     trusted_display_write_flag := trusted_display_write_flag P;
     uninitialised_u32 := uninitialised_u32 P;
     cpufreq_generic_init := cpufreq_generic_init P |}.

(** The kHz value the two wrappers make of a mailbox reply. *)
Definition khz_of (r hz : Z) : Z :=
  if negb (r =? 0) then 0 else to_u32 hz / 1000.

(** What the channel does with a request issued when the log is [t]: its
    result and the events it adds. *)
Definition channel_result (P : platform) (tag : rpi_firmware_property_tag)
    (id val : Z) (t : trace) : Z * Z :=
  let entry := t ++ [Request tag id val] in
  if gate_blocked P entry then (0, val)
  else
    let reply :=
      rpi_firmware_property P entry tag
        {| packet_id := id; packet_val := val |} in
    if negb (fst reply =? 0) then (fst reply, val)
    else (0, to_u32 (packet_val (snd reply))).

Definition channel_events (P : platform) (tag : rpi_firmware_property_tag)
    (id val : Z) (t : trace) : list event :=
  Request tag id val ::
  (if gate_blocked P (t ++ [Request tag id val]) then []
   else [Property tag {| packet_id := id; packet_val := val |}]).


Section Tables.

Context {K : KernelHeaders}.

(** A consumer walks the table up to the first [CPUFREQ_TABLE_END]
    ([cpufreq_for_each_entry]); [until_end] is what it visits, the
    terminator included. *)
Fixpoint until_end (l : list Z) : list Z :=
  match l with
  | [] => []
  | x :: rest =>
      if x =? CPUFREQ_TABLE_END then [x] else x :: until_end rest
  end.

Definition populated (table : vec Z 3) : list Z :=
  until_end (vec_to_list table).

(** States the driver can be in: module load, then any sequence of the
    three entry points on any platform. *)
Inductive reachable : world -> Prop :=
| reachable_boot : reachable boot
| reachable_init P policy w :
    reachable w ->
    reachable (snd (bcm2835_cpufreq_driver_init P policy w))
| reachable_target_index P policy state w :
    reachable w ->
    reachable (snd (bcm2835_cpufreq_driver_target_index P policy state w))
| reachable_get P cpu w :
    reachable w ->
    reachable (snd (bcm2835_cpufreq_driver_get P cpu w)).

End Tables.

(** Both bounds are quotients of a [u32] by 1000. *)
Definition rates_in_range (w : world) : Prop :=
  0 <= min_frequency w <= max_khz /\ 0 <= max_frequency w <= max_khz.

(** ** Concrete platforms *)

Module Board.

(** The values of the kernel headers: [~1u], [ENODEV], [EINVAL]. *)
Definition linux_headers : KernelHeaders :=
  {| CPUFREQ_TABLE_END := 4294967294; ENODEV := 19; EINVAL := 22 |}.

Definition fresh_policy : cpufreq_policy :=
  {| cur := 0; freq_table_attached := false;
     cpuinfo_transition_latency := 0 |}.

(** A cpufreq core that attaches the table and accepts it. *)
Definition generic_init (policy : cpufreq_policy) (table : vec Z 3)
    (latency : Z) : Z * cpufreq_policy :=
  (0, {| cur := cur policy; freq_table_attached := true;
         cpuinfo_transition_latency := latency |}).

Definition reply (r hz : Z) (p : packet) : Z * packet :=
  (r, {| packet_id := packet_id p; packet_val := hz |}).

(** A firmware with a 600 MHz to 1.5 GHz ARM clock, currently at 1.2 GHz,
    that applies every rate it is asked for. *)
Definition firmware (t : trace) (tag : rpi_firmware_property_tag)
    (p : packet) : Z * packet :=
  match tag with
  | RPI_FIRMWARE_GET_CLOCK_RATE => reply 0 1200000000 p
  | RPI_FIRMWARE_GET_MAX_CLOCK_RATE => reply 0 1500000000 p
  | RPI_FIRMWARE_GET_MIN_CLOCK_RATE => reply 0 600000000 p
  | RPI_FIRMWARE_SET_CLOCK_RATE => reply 0 (packet_val p) p
  end.

(** The same firmware behind a mailbox that fails on the GET-maximum and
    SET tags. *)
Definition flaky_firmware (t : trace) (tag : rpi_firmware_property_tag)
    (p : packet) : Z * packet :=
  match tag with
  | RPI_FIRMWARE_GET_MAX_CLOCK_RATE => (-22, p)
  | RPI_FIRMWARE_SET_CLOCK_RATE => (-22, p)
  | _ => firmware t tag p
  end.

(** A mailbox that fails on every tag. *)
Definition dead_firmware (t : trace) (tag : rpi_firmware_property_tag)
    (p : packet) : Z * packet := (-22, p).

(** A firmware whose current rate is no multiple of 1000. *)
Definition odd_firmware (t : trace) (tag : rpi_firmware_property_tag)
    (p : packet) : Z * packet := reply 0 1200000999 p.

Definition board (mytee present : bool) (flag stack : Z)
    (fw : trace -> rpi_firmware_property_tag -> packet -> Z * packet)
    : platform :=
  {| CONFIG_MYTEE := mytee;
     rpi_firmware_get := fun _ => present;
     rpi_firmware_property := fw;
     trusted_display_mmap_flag := fun _ => flag;
     trusted_display_write_flag := fun _ => 0;
     uninitialised_u32 := fun _ => stack;
     cpufreq_generic_init := generic_init |}.

(** Stock kernel, firmware up. *)
Definition stock : platform := board false true 0 3735928559 firmware.
(** MyTEE kernel, no trusted display operation in progress. *)
Definition idle : platform := board true true 0 3735928559 firmware.
(** MyTEE kernel during a trusted framebuffer mmap. *)
Definition gated : platform := board true true 1 3735928559 firmware.
(** Firmware device not probed yet. *)
Definition absent : platform := board false false 0 3735928559 firmware.
(** Mailbox failing on GET-maximum and SET. *)
Definition flaky : platform := board false true 0 3735928559 flaky_firmware.
(** Mailbox failing on everything. *)
Definition dead : platform := board false true 0 3735928559 dead_firmware.
(** Firmware reporting 1200000999 Hz. *)
Definition odd : platform := board false true 0 3735928559 odd_firmware.

(** The state [init] leaves on the stock board after module load. *)
Definition ready : world :=
  snd (bcm2835_cpufreq_driver_init (K := linux_headers)
         stock fresh_policy boot).

(** The rate of the last SET transaction in a log, [idle_rate] when there
    was none. *)
Fixpoint last_set (t : trace) (idle_rate : Z) : Z :=
  match t with
  | [] => idle_rate
  | Property RPI_FIRMWARE_SET_CLOCK_RATE p :: rest =>
      last_set rest (packet_val p)
  | _ :: rest => last_set rest idle_rate
  end.

(** A firmware that runs the clock at the rate it was last set to. *)
Definition tracking_firmware (t : trace) (tag : rpi_firmware_property_tag)
    (p : packet) : Z * packet :=
  match tag with
  | RPI_FIRMWARE_GET_CLOCK_RATE => reply 0 (last_set t 600000000) p
  | _ => firmware t tag p
  end.

Definition tracking : platform :=
  board false true 0 3735928559 tracking_firmware.

(** A firmware that answers a SET with an applied rate of 999 Hz. *)
Definition stalled_firmware (t : trace) (tag : rpi_firmware_property_tag)
    (p : packet) : Z * packet :=
  match tag with
  | RPI_FIRMWARE_SET_CLOCK_RATE => reply 0 999 p
  | _ => firmware t tag p
  end.

Definition stalled : platform :=
  board false true 0 3735928559 stalled_firmware.

(** The state [init] leaves on the odd board after module load. *)
Definition odd_ready : world :=
  snd (bcm2835_cpufreq_driver_init (K := linux_headers)
         odd fresh_policy boot).

End Board.

(** * Properties *)

(** ** Machine arithmetic *)

Lemma modulus_eq : modulus = 4294967296.
Proof. reflexivity. Qed.

Lemma to_u32_range z : 0 <= to_u32 z < modulus.
Proof. unfold to_u32. apply Z.mod_pos_bound. reflexivity. Qed.

Lemma to_u32_small z : 0 <= z < modulus -> to_u32 z = z.
Proof. intros H. unfold to_u32. now apply Z.mod_small. Qed.

Lemma to_u32_to_int z : to_u32 (to_int z) = to_u32 z.
Proof.
  unfold to_u32, to_int.
  rewrite Zminus_mod_idemp_l.
  f_equal. lia.
Qed.

(** The product computed on [int] operands and stored in a [u32] is the
    product of 32-bit unsigned arithmetic. *)
Lemma to_u32_int_mul k c : to_u32 (int_mul (to_int k) c) = to_u32 (k * c).
Proof.
  unfold int_mul. rewrite to_u32_to_int. unfold to_u32.
  rewrite <- Zmult_mod_idemp_l.
  change (to_int k mod modulus) with (to_u32 (to_int k)).
  rewrite to_u32_to_int. unfold to_u32.
  now rewrite Zmult_mod_idemp_l.
Qed.

Lemma hz_of_khz_exact k :
  0 <= k <= max_khz -> to_u32 (int_mul (to_int k) 1000) = k * 1000.
Proof.
  intros H. rewrite to_u32_int_mul. apply to_u32_small.
  rewrite modulus_eq. unfold max_khz in H. lia.
Qed.

Lemma khz_of_hz_range z : 0 <= to_u32 z / 1000 <= max_khz.
Proof.
  pose proof (to_u32_range z) as H. rewrite modulus_eq in H. split.
  - apply Z.div_pos; lia.
  - unfold max_khz. apply Z.lt_succ_r. apply Z.div_lt_upper_bound; lia.
Qed.

Lemma khz_of_range r hz : 0 <= khz_of r hz <= max_khz.
Proof.
  unfold khz_of. destruct (negb (r =? 0)).
  - unfold max_khz. lia.
  - apply khz_of_hz_range.
Qed.

Lemma khz_truncates x :
  0 <= x ->
  x / 1000 = x ÷ 1000 /\ 1000 * (x / 1000) <= x < 1000 * (x / 1000) + 1000.
Proof.
  intros Hx. split.
  - symmetry. apply Z.quot_div_nonneg; lia.
  - pose proof (Z.div_mod x 1000 ltac:(lia)) as Hdm.
    pose proof (Z.mod_pos_bound x 1000 ltac:(lia)) as Hm. lia.
Qed.

(** ** Logs and tables *)

Lemma extend_extend w es fs : extend (extend w es) fs = extend w (es ++ fs).
Proof. unfold extend. simpl. now rewrite app_assoc. Qed.

Lemma emit_extend e w : emit e w = (tt, extend w [e]).
Proof. reflexivity. Qed.

Lemma transport_calls_app t es :
  transport_calls (t ++ es) = (transport_calls t + transport_calls es)%nat.
Proof. unfold transport_calls. now rewrite List.filter_app, length_app. Qed.

Lemma channel_requests_app t es :
  channel_requests (t ++ es) = (channel_requests t + channel_requests es)%nat.
Proof. unfold channel_requests. now rewrite List.filter_app, length_app. Qed.

Lemma table_two_writes (T : vec Z 3) a b :
  vinsert 1%fin b (vinsert 0%fin a T) = [# a; b; T !!! 2%fin].
Proof. inv_vec T. intros x y z. reflexivity. Qed.

Lemma table_three_writes (T : vec Z 3) a b c :
  vinsert 2%fin c (vinsert 1%fin b (vinsert 0%fin a T)) = [# a; b; c].
Proof. inv_vec T. intros x y z. reflexivity. Qed.

Lemma rates_in_range_state w w' :
  driver_state w' = driver_state w -> rates_in_range w -> rates_in_range w'.
Proof.
  unfold driver_state, rates_in_range. intros H. injection H as -> -> _.
  trivial.
Qed.

Section TableFacts.

Context {K : KernelHeaders}.

Lemma populated_single a c :
  a <> CPUFREQ_TABLE_END ->
  populated [# a; CPUFREQ_TABLE_END; c] = [a; CPUFREQ_TABLE_END].
Proof.
  intros Ha. unfold populated. cbn [vec_to_list until_end].
  apply Z.eqb_neq in Ha. now rewrite Ha, Z.eqb_refl.
Qed.

Lemma populated_pair a b :
  a <> CPUFREQ_TABLE_END -> b <> CPUFREQ_TABLE_END ->
  populated [# a; b; CPUFREQ_TABLE_END] = [a; b; CPUFREQ_TABLE_END].
Proof.
  intros Ha Hb. unfold populated. cbn [vec_to_list until_end].
  apply Z.eqb_neq in Ha, Hb. now rewrite Ha, Hb, Z.eqb_refl.
Qed.

(** Whatever the first slots hold, the walk ends on the terminator as soon
    as one slot holds it. *)
Lemma populated_last_single a c :
  last (populated [# a; CPUFREQ_TABLE_END; c]) = Some CPUFREQ_TABLE_END.
Proof.
  unfold populated. cbn [vec_to_list until_end].
  destruct (a =? CPUFREQ_TABLE_END) eqn:Ea.
  - apply Z.eqb_eq in Ea. now subst.
  - now rewrite Z.eqb_refl.
Qed.

Lemma populated_last_pair a b :
  last (populated [# a; b; CPUFREQ_TABLE_END]) = Some CPUFREQ_TABLE_END.
Proof.
  unfold populated. cbn [vec_to_list until_end].
  destruct (a =? CPUFREQ_TABLE_END) eqn:Ea.
  - apply Z.eqb_eq in Ea. now subst.
  - destruct (b =? CPUFREQ_TABLE_END) eqn:Eb.
    + apply Z.eqb_eq in Eb. now subst.
    + now rewrite Z.eqb_refl.
Qed.

Lemma sorted_single a :
  a <= CPUFREQ_TABLE_END -> Sorted Z.le [a; CPUFREQ_TABLE_END].
Proof. intros H. repeat constructor. exact H. Qed.

Lemma sorted_pair a b :
  a <= b -> b <= CPUFREQ_TABLE_END -> Sorted Z.le [a; b; CPUFREQ_TABLE_END].
Proof. intros H1 H2. repeat constructor; assumption. Qed.

End TableFacts.

(** ** Running the driver *)

Section Execution.

Context {K : KernelHeaders} (P : platform).

(** The channel, as a function of the log at the time of the request. *)
Lemma clock_property_run tag id val w :
  bcm2835_cpufreq_clock_property P tag id val w =
  (channel_result P tag id val (log w),
   extend w (channel_events P tag id val (log w))).
Proof.
  unfold bcm2835_cpufreq_clock_property, channel_result, channel_events,
    firmware_property, bind, gets, ret.
  rewrite emit_extend. cbn [log extend].
  destruct (gate_blocked P (log w ++ [Request tag id val])); [reflexivity|].
  rewrite emit_extend, extend_extend. cbn [app log extend].
  destruct (rpi_firmware_property P _ tag _) as [r answer]. cbn [fst snd].
  destruct (negb (r =? 0)); reflexivity.
Qed.

Lemma get_clock_run tag w :
  bcm2835_cpufreq_get_clock P tag w =
  (let res :=
     channel_result P tag VCMSG_ID_ARM_CLOCK (stale_rate P w) (log w) in
   if negb (fst res =? 0) then 0 else snd res / 1000,
   extend w (channel_events P tag VCMSG_ID_ARM_CLOCK (stale_rate P w) (log w))).
Proof.
  unfold bcm2835_cpufreq_get_clock, bind, gets, ret, stale_rate.
  rewrite clock_property_run.
  destruct (channel_result P tag _ _ _) as [r rate]. cbn [fst snd].
  destruct (negb (r =? 0)); reflexivity.
Qed.

Lemma set_clock_run cur_rate arm_rate w :
  bcm2835_cpufreq_set_clock P cur_rate arm_rate w =
  (let hz := to_u32 (int_mul arm_rate 1000) in
   let res := channel_result P RPI_FIRMWARE_SET_CLOCK_RATE
                VCMSG_ID_ARM_CLOCK hz (log w) in
   if negb (fst res =? 0) then 0 else snd res / 1000,
   extend w (channel_events P RPI_FIRMWARE_SET_CLOCK_RATE
               VCMSG_ID_ARM_CLOCK (to_u32 (int_mul arm_rate 1000)) (log w))).
Proof.
  unfold bcm2835_cpufreq_set_clock, bind, ret.
  rewrite clock_property_run.
  destruct (channel_result P _ _ _ _) as [r rate]. cbn [fst snd].
  destruct (negb (r =? 0)); reflexivity.
Qed.

Lemma driver_get_run cpu w :
  bcm2835_cpufreq_driver_get P cpu w =
  (let m := bcm2835_cpufreq_get_clock P RPI_FIRMWARE_GET_CLOCK_RATE w in
   (if fst m <=? min_frequency w then min_frequency w else max_frequency w,
    snd m)).
Proof.
  unfold bcm2835_cpufreq_driver_get, bind, gets, ret.
  rewrite get_clock_run. reflexivity.
Qed.

Lemma target_index_run policy state w :
  bcm2835_cpufreq_driver_target_index P policy state w =
  (let target :=
     if state =? 0 then min_frequency w else max_frequency w in
   let m := bcm2835_cpufreq_set_clock P (to_int (cur policy))
              (to_int target) w in
   (if fst m =? 0 then - EINVAL else 0, snd m)).
Proof.
  unfold bcm2835_cpufreq_driver_target_index, bind, gets, ret.
  cbn zeta. destruct (bcm2835_cpufreq_set_clock P _ _ w) as [now w'].
  cbn [fst snd]. destruct (now =? 0); reflexivity.
Qed.

Lemma init_run_absent policy w :
  rpi_firmware_get P (log w) = false ->
  bcm2835_cpufreq_driver_init P policy w = (- ENODEV, policy, w).
Proof.
  intros Hfw. unfold bcm2835_cpufreq_driver_init, bind, gets, ret.
  now rewrite Hfw.
Qed.

Lemma init_run policy w :
  rpi_firmware_get P (log w) = true ->
  bcm2835_cpufreq_driver_init P policy w =
  (let m1 := bcm2835_cpufreq_get_clock P RPI_FIRMWARE_GET_MIN_CLOCK_RATE w in
   let m2 := bcm2835_cpufreq_get_clock P RPI_FIRMWARE_GET_MAX_CLOCK_RATE
               (snd m1) in
   let lo := fst m1 in
   let hi := fst m2 in
   let table :=
     if lo =? hi then
       vinsert 1%fin CPUFREQ_TABLE_END
         (vinsert 0%fin lo (bcm2835_freq_table w))
     else
       vinsert 2%fin CPUFREQ_TABLE_END
         (vinsert 1%fin hi (vinsert 0%fin lo (bcm2835_freq_table w))) in
   (cpufreq_generic_init P policy table 355000,
    {| min_frequency := lo; max_frequency := hi;
       bcm2835_freq_table := table; log := log (snd m2) |})).
Proof.
  intros Hfw.
  unfold bcm2835_cpufreq_driver_init, bind, gets, ret.
  rewrite Hfw. cbn [negb].
  rewrite !get_clock_run. cbn [fst snd].
  unfold set_min_frequency.
  rewrite !get_clock_run. cbn [fst snd log extend stale_rate].
  unfold set_max_frequency, set_table_frequency, stale_rate.
  cbn [fst snd log extend min_frequency max_frequency bcm2835_freq_table].
  match goal with |- context [if ?c then _ else _] =>
    destruct c end; reflexivity.
Qed.

(** *** What each entry point leaves of the statics *)

Lemma get_clock_state tag w :
  driver_state (snd (bcm2835_cpufreq_get_clock P tag w)) = driver_state w.
Proof. rewrite get_clock_run. reflexivity. Qed.

Lemma driver_get_state cpu w :
  driver_state (snd (bcm2835_cpufreq_driver_get P cpu w)) = driver_state w.
Proof. rewrite driver_get_run. cbn [snd]. apply get_clock_state. Qed.

Lemma target_index_state policy state w :
  driver_state (snd (bcm2835_cpufreq_driver_target_index P policy state w)) =
  driver_state w.
Proof.
  rewrite target_index_run. cbn [snd]. rewrite set_clock_run. reflexivity.
Qed.

Lemma init_bounds policy w :
  rpi_firmware_get P (log w) = true ->
  let w' := snd (bcm2835_cpufreq_driver_init P policy w) in
  min_frequency w' =
    fst (bcm2835_cpufreq_get_clock P RPI_FIRMWARE_GET_MIN_CLOCK_RATE w) /\
  max_frequency w' =
    fst (bcm2835_cpufreq_get_clock P RPI_FIRMWARE_GET_MAX_CLOCK_RATE
           (snd (bcm2835_cpufreq_get_clock P
                   RPI_FIRMWARE_GET_MIN_CLOCK_RATE w))).
Proof.
  intros Hfw. cbn zeta. rewrite (init_run policy w Hfw). now split.
Qed.

(** The table [init] leaves behind, in terms of the two bounds it has just
    stored; holds on every platform with a firmware handle. *)
Lemma init_table_shape policy w :
  rpi_firmware_get P (log w) = true ->
  let w' := snd (bcm2835_cpufreq_driver_init P policy w) in
  bcm2835_freq_table w' =
  if min_frequency w' =? max_frequency w' then
    [# min_frequency w'; CPUFREQ_TABLE_END; bcm2835_freq_table w !!! 2%fin]
  else
    [# min_frequency w'; max_frequency w'; CPUFREQ_TABLE_END].
Proof.
  intros Hfw. cbn zeta. rewrite (init_run policy w Hfw).
  cbn [snd min_frequency max_frequency bcm2835_freq_table].
  destruct (_ =? _).
  - apply table_two_writes.
  - apply table_three_writes.
Qed.

Lemma init_result policy w :
  rpi_firmware_get P (log w) = true ->
  fst (bcm2835_cpufreq_driver_init P policy w) =
  cpufreq_generic_init P policy
    (bcm2835_freq_table (snd (bcm2835_cpufreq_driver_init P policy w)))
    355000.
Proof. intros Hfw. now rewrite (init_run policy w Hfw). Qed.

(** *** Range of the rates *)

Lemma get_clock_range tag w :
  0 <= fst (bcm2835_cpufreq_get_clock P tag w) <= max_khz.
Proof.
  rewrite get_clock_run. cbn [fst]. unfold channel_result.
  destruct (gate_blocked P _); cbn [fst snd].
  - apply khz_of_hz_range.
  - destruct (negb (fst (rpi_firmware_property P _ tag _) =? 0)) eqn:E;
      cbn [fst snd]; rewrite ?E; cbn [negb Z.eqb].
    + unfold max_khz. lia.
    + apply khz_of_hz_range.
Qed.

Lemma init_rates_in_range policy w :
  rates_in_range w ->
  rates_in_range (snd (bcm2835_cpufreq_driver_init P policy w)).
Proof.
  intros Hw. destruct (rpi_firmware_get P (log w)) eqn:Hfw.
  - destruct (init_bounds policy w Hfw) as [H1 H2]. cbn zeta in H1, H2.
    unfold rates_in_range. rewrite H1, H2.
    split; apply get_clock_range.
  - now rewrite init_run_absent.
Qed.

End Execution.

(** Both bounds stay kHz values of 32-bit Hz rates for the whole life of the
    driver. *)
Lemma reachable_rates_in_range {K : KernelHeaders} w :
  reachable w -> rates_in_range w.
Proof.
  induction 1 as [|P policy w _ IH|P policy state w _ IH|P cpu w _ IH].
  - unfold rates_in_range, boot, max_khz. cbn. lia.
  - now apply init_rates_in_range.
  - eapply rates_in_range_state; [apply target_index_state | exact IH].
  - eapply rates_in_range_state; [apply driver_get_state | exact IH].
Qed.

(** ** The channel under the gate *)

Section Channel.

Context {K : KernelHeaders} (P : platform).

Lemma gate_absent t : CONFIG_MYTEE P = false -> gate_blocked P t = false.
Proof. intros H. unfold gate_blocked. now rewrite H. Qed.

Lemma channel_result_blocked tag id val t :
  gate_blocked P (t ++ [Request tag id val]) = true ->
  channel_result P tag id val t = (0, val).
Proof. intros H. unfold channel_result. now rewrite H. Qed.

Lemma channel_events_blocked tag id val t :
  gate_blocked P (t ++ [Request tag id val]) = true ->
  channel_events P tag id val t = [Request tag id val].
Proof. intros H. unfold channel_events. now rewrite H. Qed.

Lemma channel_events_unblocked tag id val t :
  gate_blocked P (t ++ [Request tag id val]) = false ->
  channel_events P tag id val t =
  [Request tag id val;
   Property tag {| packet_id := id; packet_val := val |}].
Proof. intros H. unfold channel_events. now rewrite H. Qed.

Lemma channel_result_answered tag val t r hz :
  answered P tag val t r hz ->
  channel_result P tag VCMSG_ID_ARM_CLOCK val t =
  if negb (r =? 0) then (r, val) else (0, to_u32 hz).
Proof.
  intros (Hgate & Hr & Hv).
  unfold blocked_at, arm_request in Hgate.
  unfold transport_reply, arm_request, arm_packet in Hr, Hv.
  unfold channel_result. cbn zeta. now rewrite Hgate, Hr, Hv.
Qed.

(** Return code and packet content decide what a wrapper returns. *)
Lemma khz_of_channel_result r val hz :
  (let res := if negb (r =? 0) then (r, val) else (0, to_u32 hz) in
   if negb (fst res =? 0) then 0 else snd res / 1000) = khz_of r hz.
Proof.
  unfold khz_of. cbn zeta. destruct (negb (r =? 0)) eqn:E; cbn [fst snd].
  - now rewrite E.
  - reflexivity.
Qed.

Lemma get_clock_answered tag w r hz :
  get_answered P tag w r hz ->
  fst (bcm2835_cpufreq_get_clock P tag w) = khz_of r hz.
Proof.
  intros Hans. rewrite get_clock_run. cbn [fst].
  rewrite (channel_result_answered _ _ _ r hz Hans).
  apply khz_of_channel_result.
Qed.

Lemma set_clock_answered cur_rate arm_rate w r hz :
  answered P RPI_FIRMWARE_SET_CLOCK_RATE
    (to_u32 (int_mul arm_rate 1000)) (log w) r hz ->
  fst (bcm2835_cpufreq_set_clock P cur_rate arm_rate w) = khz_of r hz.
Proof.
  intros Hans. rewrite set_clock_run. cbn [fst].
  rewrite (channel_result_answered _ _ _ r hz Hans).
  apply khz_of_channel_result.
Qed.

Lemma get_clock_failed tag w :
  get_failed P tag w -> fst (bcm2835_cpufreq_get_clock P tag w) = 0.
Proof.
  intros [Hgate Hr].
  assert (Hans : get_answered P tag w
                   (fst (transport_reply P tag (stale_rate P w) (log w)))
                   (packet_val
                      (snd (transport_reply P tag (stale_rate P w) (log w)))))
    by (now split).
  rewrite (get_clock_answered _ _ _ _ Hans). unfold khz_of.
  apply Z.eqb_neq in Hr. now rewrite Hr.
Qed.

Lemma get_clock_blocked tag w :
  get_blocked P tag w ->
  bcm2835_cpufreq_get_clock P tag w =
  (stale_rate P w / 1000, extend w [arm_request tag (stale_rate P w)]).
Proof.
  intros H. unfold get_blocked, blocked_at, arm_request in H.
  rewrite get_clock_run.
  rewrite channel_result_blocked, channel_events_blocked by exact H.
  reflexivity.
Qed.

Lemma init_bounds_answered policy w r1 hz1 r2 hz2 :
  rpi_firmware_get P (log w) = true ->
  get_answered P RPI_FIRMWARE_GET_MIN_CLOCK_RATE w r1 hz1 ->
  get_answered P RPI_FIRMWARE_GET_MAX_CLOCK_RATE
    (snd (bcm2835_cpufreq_get_clock P RPI_FIRMWARE_GET_MIN_CLOCK_RATE w))
    r2 hz2 ->
  let w' := snd (bcm2835_cpufreq_driver_init P policy w) in
  min_frequency w' = khz_of r1 hz1 /\ max_frequency w' = khz_of r2 hz2.
Proof.
  intros Hfw H1 H2. cbn zeta.
  destruct (init_bounds P policy w Hfw) as [-> ->].
  split; now apply get_clock_answered.
Qed.

End Channel.

(** * The claims *)

Import Board.

(** ** Table construction *)

Section TableConstruction.

Context {K : KernelHeaders} (P : platform).

(** C1. For every pair of rates the firmware reports for GET-minimum and
    GET-maximum, [init] stores their kHz values and leaves the table
    [min, TABLE_END] with slot 2 untouched when the two kHz values are
    equal, and [min, max, TABLE_END] otherwise; a walk of the table ends on
    the terminator in both cases. *)
Theorem init_builds_table policy w hz_min hz_max :
  rpi_firmware_get P (log w) = true ->
  get_answered P RPI_FIRMWARE_GET_MIN_CLOCK_RATE w 0 hz_min ->
  get_answered P RPI_FIRMWARE_GET_MAX_CLOCK_RATE
    (snd (bcm2835_cpufreq_get_clock P RPI_FIRMWARE_GET_MIN_CLOCK_RATE w))
    0 hz_max ->
  let w' := snd (bcm2835_cpufreq_driver_init P policy w) in
  let lo := to_u32 hz_min / 1000 in
  let hi := to_u32 hz_max / 1000 in
  min_frequency w' = lo /\
  max_frequency w' = hi /\
  bcm2835_freq_table w' =
    (if lo =? hi
     then [# lo; CPUFREQ_TABLE_END; bcm2835_freq_table w !!! 2%fin]
     else [# lo; hi; CPUFREQ_TABLE_END]) /\
  last (populated (bcm2835_freq_table w')) = Some CPUFREQ_TABLE_END /\
  (max_khz < CPUFREQ_TABLE_END ->
   populated (bcm2835_freq_table w') =
     if lo =? hi then [lo; CPUFREQ_TABLE_END]
     else [lo; hi; CPUFREQ_TABLE_END]).
Proof.
  intros Hfw Hmin Hmax w' lo hi.
  destruct (init_bounds_answered P policy w 0 hz_min 0 hz_max Hfw Hmin Hmax)
    as [Hlo Hhi].
  fold w' in Hlo, Hhi. change (khz_of 0 hz_min) with lo in Hlo.
  change (khz_of 0 hz_max) with hi in Hhi.
  pose proof (init_table_shape P policy w Hfw) as Ht. fold w' in Ht.
  cbn zeta in Ht. rewrite Hlo, Hhi in Ht.
  pose proof (khz_of_hz_range hz_min) as Rlo. fold lo in Rlo.
  pose proof (khz_of_hz_range hz_max) as Rhi. fold hi in Rhi.
  split; [exact Hlo|]. split; [exact Hhi|]. split; [exact Ht|]. split.
  - rewrite Ht. destruct (lo =? hi).
    + apply populated_last_single.
    + apply populated_last_pair.
  - intros Hend. rewrite Ht. destruct (lo =? hi).
    + apply populated_single. lia.
    + apply populated_pair; lia.
Qed.

End TableConstruction.

(** The stock board at module load: 600 MHz and 1.5 GHz give the table
    [600000, 1500000, TABLE_END].  A firmware with a single rate gives
    [600000, TABLE_END] and leaves slot 2 alone. *)
Lemma init_builds_table_witness :
  let w' := snd (bcm2835_cpufreq_driver_init (K := linux_headers)
                   stock fresh_policy boot) in
  min_frequency w' = 600000 /\
  max_frequency w' = 1500000 /\
  bcm2835_freq_table w' = [# 600000; 1500000; 4294967294] /\
  last (populated (K := linux_headers) (bcm2835_freq_table w')) =
    Some 4294967294 /\
  populated (K := linux_headers) (bcm2835_freq_table w') =
    [600000; 1500000; 4294967294].
Proof.
  intros w'.
  assert (H1 : get_answered stock RPI_FIRMWARE_GET_MIN_CLOCK_RATE boot
                 0 600000000) by (repeat split).
  assert (H2 : get_answered stock RPI_FIRMWARE_GET_MAX_CLOCK_RATE
                 (snd (bcm2835_cpufreq_get_clock stock
                         RPI_FIRMWARE_GET_MIN_CLOCK_RATE boot))
                 0 1500000000) by (repeat split).
  destruct (init_builds_table (K := linux_headers) stock fresh_policy boot
              600000000 1500000000 eq_refl H1 H2)
    as (Hlo & Hhi & Htable & Hlast & Hwalk).
  fold w' in Hlo, Hhi, Htable, Hlast, Hwalk.
  split; [exact Hlo|]. split; [exact Hhi|]. split; [exact Htable|].
  split; [exact Hlast|]. exact (Hwalk eq_refl).
Defined.

Example init_single_rate :
  driver_state
    (snd (bcm2835_cpufreq_driver_init (K := linux_headers)
            (board false true 0 0 (fun _ _ p => reply 0 600000000 p))
            fresh_policy boot)) =
  (600000, 600000, [# 600000; 4294967294; 0]).
Proof. reflexivity. Qed.

(** ** Initialisation without firmware *)

Section NoFirmware.

Context {K : KernelHeaders} (P : platform).

(** C6. When [rpi_firmware_get] finds no firmware, [init] returns [-ENODEV]
    at once: no channel request, no mailbox transaction, and the statics,
    the table and the policy as they were. *)
Theorem init_without_firmware policy w :
  rpi_firmware_get P (log w) = false ->
  let out := bcm2835_cpufreq_driver_init P policy w in
  out = (- ENODEV, policy, w) /\
  driver_state (snd out) = driver_state w /\
  channel_requests (log (snd out)) = channel_requests (log w) /\
  transport_calls (log (snd out)) = transport_calls (log w).
Proof.
  intros Hfw out. subst out. rewrite (init_run_absent P policy w Hfw).
  repeat split.
Qed.

End NoFirmware.

Lemma init_without_firmware_witness :
  rpi_firmware_get absent (log ready) = false /\
  bcm2835_cpufreq_driver_init (K := linux_headers) absent fresh_policy ready =
  (- 19, fresh_policy, ready).
Proof.
  split; [reflexivity|].
  apply (init_without_firmware (K := linux_headers) absent fresh_policy ready).
  reflexivity.
Defined.

(** ** The security gate *)

Section Gate.

Context {K : KernelHeaders} (P : platform).

(** C7. A channel request made while the gate blocks returns 0 and leaves
    the caller's value as it was, without a mailbox transaction; a request
    made while the gate is open, or in a kernel built without the gate,
    makes exactly one. *)
Theorem clock_property_gate tag id val w :
  let entry := log w ++ [Request tag id val] in
  let out := bcm2835_cpufreq_clock_property P tag id val w in
  (gate_blocked P entry = true ->
     out = (0, val, extend w [Request tag id val]) /\
     transport_calls (log (snd out)) = transport_calls (log w)) /\
  (gate_blocked P entry = false ->
     log (snd out) =
       entry ++ [Property tag {| packet_id := id; packet_val := val |}] /\
     transport_calls (log (snd out)) = S (transport_calls (log w))) /\
  (CONFIG_MYTEE P = false -> gate_blocked P entry = false).
Proof.
  intros entry out. subst out. rewrite clock_property_run.
  subst entry. cbn [snd log extend].
  split; [|split].
  - intros Hgate. split.
    + now rewrite channel_result_blocked, channel_events_blocked.
    + rewrite channel_events_blocked by assumption.
      rewrite transport_calls_app. cbn. lia.
  - intros Hgate. split.
    + rewrite channel_events_unblocked by assumption.
      now rewrite <- app_assoc.
    + rewrite channel_events_unblocked by assumption.
      rewrite transport_calls_app. cbn. lia.
  - apply gate_absent.
Qed.

End Gate.

(** A GET-current request on the gated board is skipped; the same request
    on the idle board reaches the mailbox once; the stock kernel has no
    gate. *)
Lemma clock_property_gate_witness :
  (bcm2835_cpufreq_clock_property gated RPI_FIRMWARE_GET_CLOCK_RATE
     VCMSG_ID_ARM_CLOCK 7 ready =
   (0, 7, extend ready [Request RPI_FIRMWARE_GET_CLOCK_RATE VCMSG_ID_ARM_CLOCK 7])
   /\
   transport_calls
     (log (snd (bcm2835_cpufreq_clock_property gated
                  RPI_FIRMWARE_GET_CLOCK_RATE VCMSG_ID_ARM_CLOCK 7 ready))) =
   transport_calls (log ready)) /\
  (log (snd (bcm2835_cpufreq_clock_property idle
               RPI_FIRMWARE_GET_CLOCK_RATE VCMSG_ID_ARM_CLOCK 7 ready)) =
   (log ready ++ [Request RPI_FIRMWARE_GET_CLOCK_RATE VCMSG_ID_ARM_CLOCK 7]) ++
   [Property RPI_FIRMWARE_GET_CLOCK_RATE
      {| packet_id := VCMSG_ID_ARM_CLOCK; packet_val := 7 |}] /\
   transport_calls
     (log (snd (bcm2835_cpufreq_clock_property idle
                  RPI_FIRMWARE_GET_CLOCK_RATE VCMSG_ID_ARM_CLOCK 7 ready))) =
   S (transport_calls (log ready))) /\
  gate_blocked stock
    (log ready ++ [Request RPI_FIRMWARE_GET_CLOCK_RATE VCMSG_ID_ARM_CLOCK 7]) =
  false.
Proof.
  split; [|split].
  - apply (proj1 (clock_property_gate gated RPI_FIRMWARE_GET_CLOCK_RATE
                    VCMSG_ID_ARM_CLOCK 7 ready)).
    reflexivity.
  - apply (proj1 (proj2 (clock_property_gate idle RPI_FIRMWARE_GET_CLOCK_RATE
                           VCMSG_ID_ARM_CLOCK 7 ready))).
    reflexivity.
  - apply (proj2 (proj2 (clock_property_gate stock RPI_FIRMWARE_GET_CLOCK_RATE
                           VCMSG_ID_ARM_CLOCK 7 ready))).
    reflexivity.
Defined.

(** ** Reading the current rate *)

Section Get.

Context {K : KernelHeaders} (P : platform).

(** C2. [get] turns the rate the firmware reports from Hz into kHz and
    answers [min_frequency] when that is at most [min_frequency], else
    [max_frequency]; whatever the platform does, its answer is one of the
    two stored bounds, and it changes none of the statics. *)
Theorem driver_get_snaps cpu w :
  let out := bcm2835_cpufreq_driver_get P cpu w in
  (forall hz,
      get_answered P RPI_FIRMWARE_GET_CLOCK_RATE w 0 hz ->
      fst out =
      if to_u32 hz / 1000 <=? min_frequency w
      then min_frequency w else max_frequency w) /\
  (fst out = min_frequency w \/ fst out = max_frequency w) /\
  driver_state (snd out) = driver_state w.
Proof.
  cbn zeta. split; [|split].
  - intros hz Hrep. rewrite driver_get_run. cbn [fst].
    now rewrite (get_clock_answered P _ w 0 hz Hrep).
  - rewrite driver_get_run. cbn [fst].
    destruct (_ <=? _); [now left | now right].
  - apply driver_get_state.
Qed.

End Get.

(** On the stock board the firmware reports 1.2 GHz; between the bounds
    600000 and 1500000 the answer is 1500000. *)
Lemma driver_get_snaps_witness :
  get_answered stock RPI_FIRMWARE_GET_CLOCK_RATE ready 0 1200000000 /\
  fst (bcm2835_cpufreq_driver_get stock 0 ready) =
  if to_u32 1200000000 / 1000 <=? min_frequency ready
  then min_frequency ready else max_frequency ready.
Proof.
  assert (H : get_answered stock RPI_FIRMWARE_GET_CLOCK_RATE ready
                0 1200000000) by (repeat split).
  split; [exact H|].
  exact (proj1 (driver_get_snaps stock 0 ready) 1200000000 H).
Defined.

Example driver_get_snaps_up :
  fst (bcm2835_cpufreq_driver_get stock 0 ready) = 1500000.
Proof. reflexivity. Qed.

(** ** Switching the rate *)

Section TargetIndex.

Context {K : KernelHeaders} (P : platform).

(** C3. In every reachable state and for every index, [target_index] picks
    [min_frequency] for index 0 and [max_frequency] for any other index, and
    makes one SET request to the channel, carrying the picked rate times
    1000; the channel hands that same value to the mailbox unless the gate
    blocks. *)
Theorem target_index_requests policy state w :
  reachable w ->
  let target := if state =? 0 then min_frequency w else max_frequency w in
  let hz := target * 1000 in
  let w' := snd (bcm2835_cpufreq_driver_target_index P policy state w) in
  log w' =
    log w ++
    arm_request RPI_FIRMWARE_SET_CLOCK_RATE hz ::
    (if blocked_at P RPI_FIRMWARE_SET_CLOCK_RATE hz (log w) then []
     else [Property RPI_FIRMWARE_SET_CLOCK_RATE (arm_packet hz)]) /\
  channel_requests (log w') = S (channel_requests (log w)).
Proof.
  intros Hreach target hz w'.
  assert (Hrange : 0 <= target <= max_khz).
  { pose proof (reachable_rates_in_range w Hreach) as [Hlo Hhi].
    subst target. now destruct (state =? 0). }
  assert (Hlog : log w' =
                 log w ++
                 arm_request RPI_FIRMWARE_SET_CLOCK_RATE hz ::
                 (if blocked_at P RPI_FIRMWARE_SET_CLOCK_RATE hz (log w)
                  then []
                  else [Property RPI_FIRMWARE_SET_CLOCK_RATE (arm_packet hz)])).
  { subst w'. rewrite target_index_run. cbn [snd].
    rewrite set_clock_run. cbn [snd log extend]. fold target.
    now rewrite (hz_of_khz_exact target Hrange). }
  split; [exact Hlog|].
  rewrite Hlog, channel_requests_app.
  destruct (blocked_at P _ _ _); cbn; lia.
Qed.

(** C5. [target_index] returns [-EINVAL] exactly when
    [bcm2835_cpufreq_set_clock] hands back the rate 0, which is what a
    failed transaction and an applied rate below 1 kHz both give, and 0 for
    any other rate; in neither case does it touch the statics. *)
Theorem target_index_result policy state w :
  let target := if state =? 0 then min_frequency w else max_frequency w in
  let arm_rate := to_int target in
  let actual :=
    fst (bcm2835_cpufreq_set_clock P (to_int (cur policy)) arm_rate w) in
  let out := bcm2835_cpufreq_driver_target_index P policy state w in
  (actual = 0 -> fst out = - EINVAL) /\
  (actual <> 0 -> fst out = 0) /\
  driver_state (snd out) = driver_state w /\
  (forall r hz,
      answered P RPI_FIRMWARE_SET_CLOCK_RATE
        (to_u32 (int_mul arm_rate 1000)) (log w) r hz ->
      actual = khz_of r hz).
Proof.
  intros target arm_rate actual out.
  assert (Hout : fst out = if actual =? 0 then - EINVAL else 0).
  { subst out. rewrite target_index_run. reflexivity. }
  split; [|split; [|split]].
  - intros H0. now rewrite Hout, H0.
  - intros Hn. apply Z.eqb_neq in Hn. now rewrite Hout, Hn.
  - apply target_index_state.
  - intros r hz Hans. now apply set_clock_answered.
Qed.

End TargetIndex.

(** After [init] on the stock board, index 1 asks for 1.5 GHz and index 0
    for 600 MHz. *)
Lemma target_index_requests_witness :
  reachable (K := linux_headers) ready /\
  (log (snd (bcm2835_cpufreq_driver_target_index (K := linux_headers)
               stock fresh_policy 1 ready)) =
   log ready ++
   [arm_request RPI_FIRMWARE_SET_CLOCK_RATE 1500000000;
    Property RPI_FIRMWARE_SET_CLOCK_RATE (arm_packet 1500000000)]) /\
  (log (snd (bcm2835_cpufreq_driver_target_index (K := linux_headers)
               stock fresh_policy 0 ready)) =
   log ready ++
   [arm_request RPI_FIRMWARE_SET_CLOCK_RATE 600000000;
    Property RPI_FIRMWARE_SET_CLOCK_RATE (arm_packet 600000000)]).
Proof.
  assert (Hw : reachable (K := linux_headers) ready)
    by (apply reachable_init, reachable_boot).
  split; [exact Hw|]. split.
  - exact (proj1 (target_index_requests (K := linux_headers) stock
                    fresh_policy 1 ready Hw)).
  - exact (proj1 (target_index_requests (K := linux_headers) stock
                    fresh_policy 0 ready Hw)).
Defined.

(** A mailbox that fails the SET makes [target_index] return [-EINVAL];
    one that applies the rate makes it return 0. *)
Lemma target_index_result_witness :
  fst (bcm2835_cpufreq_driver_target_index (K := linux_headers)
         flaky fresh_policy 1 ready) = - 22 /\
  fst (bcm2835_cpufreq_driver_target_index (K := linux_headers)
         stock fresh_policy 1 ready) = 0 /\
  fst (bcm2835_cpufreq_set_clock stock (to_int (cur fresh_policy))
         (to_int (max_frequency ready)) ready) = khz_of 0 1500000000.
Proof.
  split; [|split].
  - apply (proj1 (target_index_result (K := linux_headers) flaky
                    fresh_policy 1 ready)).
    reflexivity.
  - apply (proj1 (proj2 (target_index_result (K := linux_headers) stock
                           fresh_policy 1 ready))).
    vm_compute. discriminate.
  - apply (proj2 (proj2 (proj2 (target_index_result (K := linux_headers)
                                  stock fresh_policy 1 ready)))
             0 1500000000).
    repeat split.
Defined.

(** With the gate blocking, the channel echoes the request: index 0 in a
    state whose minimum is 0 is refused, any other rate is accepted. *)
Example target_index_under_blocked_gate :
  fst (bcm2835_cpufreq_driver_target_index (K := linux_headers)
         gated fresh_policy 0 boot) = - 22 /\
  fst (bcm2835_cpufreq_driver_target_index (K := linux_headers)
         gated fresh_policy 0 ready) = 0.
Proof. split; reflexivity. Qed.

(** ** Transport failures *)

Section TransportFailure.

Context {K : KernelHeaders} (P : platform).

(** C8. A failing GET-minimum or GET-maximum transaction makes [init] store
    0 for that bound and go on: the 0 sits in the table (slot 0 for the
    minimum; for the maximum slot 1, or slot 0 when the minimum is 0 as
    well), and what [init] returns is the verdict of [cpufreq_generic_init]
    on that table.  The firmware's error code goes no further than
    [bcm2835_cpufreq_get_clock], which answers 0 for every failing
    transaction, so that [get] answers [min_frequency]. *)
Theorem init_survives_transport_failure policy w :
  rpi_firmware_get P (log w) = true ->
  let out := bcm2835_cpufreq_driver_init P policy w in
  let w' := snd out in
  let w1 :=
    snd (bcm2835_cpufreq_get_clock P RPI_FIRMWARE_GET_MIN_CLOCK_RATE w) in
  (get_failed P RPI_FIRMWARE_GET_MIN_CLOCK_RATE w ->
     min_frequency w' = 0 /\ bcm2835_freq_table w' !!! 0%fin = 0) /\
  (get_failed P RPI_FIRMWARE_GET_MAX_CLOCK_RATE w1 ->
     max_frequency w' = 0 /\
     if min_frequency w' =? 0
     then bcm2835_freq_table w' !!! 0%fin = 0
     else bcm2835_freq_table w' !!! 1%fin = 0) /\
  fst out =
    cpufreq_generic_init P policy (bcm2835_freq_table w') 355000 /\
  (forall tag w0,
      get_failed P tag w0 -> fst (bcm2835_cpufreq_get_clock P tag w0) = 0) /\
  (forall cpu,
      get_failed P RPI_FIRMWARE_GET_CLOCK_RATE w' ->
      fst (bcm2835_cpufreq_driver_get P cpu w') = min_frequency w').
Proof.
  intros Hfw out w' w1.
  destruct (init_bounds P policy w Hfw) as [Hlo Hhi].
  cbn zeta in Hlo, Hhi. fold out in Hlo, Hhi. fold w' in Hlo, Hhi.
  fold w1 in Hhi.
  pose proof (init_table_shape P policy w Hfw) as Ht.
  cbn zeta in Ht. fold out in Ht. fold w' in Ht.
  assert (Hmin : get_failed P RPI_FIRMWARE_GET_MIN_CLOCK_RATE w ->
                 min_frequency w' = 0)
    by (intros Hfail; rewrite Hlo; now apply get_clock_failed).
  assert (Hmax : get_failed P RPI_FIRMWARE_GET_MAX_CLOCK_RATE w1 ->
                 max_frequency w' = 0)
    by (intros Hfail; rewrite Hhi; now apply get_clock_failed).
  split; [|split; [|split; [|split]]].
  - intros Hfail. split; [now apply Hmin|].
    rewrite Ht, (Hmin Hfail). now destruct (0 =? max_frequency w').
  - intros Hfail. split; [now apply Hmax|].
    rewrite Ht, (Hmax Hfail).
    destruct (min_frequency w' =? 0) eqn:E; [|reflexivity].
    apply Z.eqb_eq in E. now rewrite E.
  - apply (init_result P policy w Hfw).
  - intros tag w0 Hfail. now apply get_clock_failed.
  - intros cpu Hfail. rewrite driver_get_run. cbn [fst].
    rewrite (get_clock_failed P _ w' Hfail).
    pose proof (get_clock_range P RPI_FIRMWARE_GET_MIN_CLOCK_RATE w) as Hm.
    rewrite <- Hlo in Hm.
    destruct (0 <=? min_frequency w') eqn:E; [reflexivity|].
    apply Z.leb_gt in E. lia.
Qed.

End TransportFailure.

(** The flaky board fails GET-maximum: the bound is 0 and slot 1 holds it.
    The dead board fails every tag: the minimum is 0, slot 0 holds it, and
    [get] answers 0. *)
Lemma init_survives_transport_failure_witness :
  (let w' := snd (bcm2835_cpufreq_driver_init (K := linux_headers)
                    flaky fresh_policy boot) in
   max_frequency w' = 0 /\
   if min_frequency w' =? 0
   then bcm2835_freq_table w' !!! 0%fin = 0
   else bcm2835_freq_table w' !!! 1%fin = 0) /\
  (let w' := snd (bcm2835_cpufreq_driver_init (K := linux_headers)
                    dead fresh_policy boot) in
   min_frequency w' = 0 /\ bcm2835_freq_table w' !!! 0%fin = 0) /\
  (let w' := snd (bcm2835_cpufreq_driver_init (K := linux_headers)
                    dead fresh_policy boot) in
   fst (bcm2835_cpufreq_driver_get dead 0 w') = min_frequency w').
Proof.
  split; [|split].
  - apply (proj1 (proj2 (init_survives_transport_failure
                           (K := linux_headers) flaky fresh_policy boot
                           eq_refl))).
    split; [reflexivity | vm_compute; discriminate].
  - apply (proj1 (init_survives_transport_failure
                    (K := linux_headers) dead fresh_policy boot eq_refl)).
    split; [reflexivity | vm_compute; discriminate].
  - apply (proj2 (proj2 (proj2 (proj2 (init_survives_transport_failure
                    (K := linux_headers) dead fresh_policy boot
                    eq_refl)))) 0).
    split; [reflexivity | vm_compute; discriminate].
Defined.

Example init_on_flaky_board :
  bcm2835_cpufreq_driver_init (K := linux_headers) flaky fresh_policy boot =
  (0,
   {| cur := 0; freq_table_attached := true;
      cpuinfo_transition_latency := 355000 |},
   {| min_frequency := 600000; max_frequency := 0;
      bcm2835_freq_table := [# 600000; 0; 4294967294];
      log :=
        [arm_request RPI_FIRMWARE_GET_MIN_CLOCK_RATE 3735928559;
         Property RPI_FIRMWARE_GET_MIN_CLOCK_RATE (arm_packet 3735928559);
         arm_request RPI_FIRMWARE_GET_MAX_CLOCK_RATE 3735928559;
         Property RPI_FIRMWARE_GET_MAX_CLOCK_RATE (arm_packet 3735928559)] |}).
Proof. reflexivity. Qed.

(** ** Unit conversion *)

Section Conversion.

Context {K : KernelHeaders} (P : platform).

(** C9. The Hz value of a request is the 32-bit unsigned product of the kHz
    rate and 1000: the product the driver forms on [int] operands agrees
    with it for every operand.  In every reachable state the product does
    not wrap, so the Hz value [target_index] sends is the exact multiple
    [1000 * target].  In the other direction a reported Hz rate is divided
    by 1000 and truncated toward zero, with nothing added before or after,
    for GET and for the rate read back after a SET. *)
Theorem rate_conversions policy state w :
  reachable w ->
  let target := if state =? 0 then min_frequency w else max_frequency w in
  let hz := target * 1000 in
  let w' := snd (bcm2835_cpufreq_driver_target_index P policy state w) in
  (forall k, to_u32 (int_mul (to_int k) 1000) = to_u32 (k * 1000)) /\
  log w' =
    log w ++
    channel_events P RPI_FIRMWARE_SET_CLOCK_RATE VCMSG_ID_ARM_CLOCK hz
      (log w) /\
  0 <= hz < modulus /\
  (1000 | hz) /\
  (forall tag w0 reported,
      get_answered P tag w0 0 reported ->
      let khz := fst (bcm2835_cpufreq_get_clock P tag w0) in
      khz = to_u32 reported ÷ 1000 /\
      1000 * khz <= to_u32 reported < 1000 * khz + 1000) /\
  (forall cur_rate arm_rate w0 reported,
      answered P RPI_FIRMWARE_SET_CLOCK_RATE
        (to_u32 (int_mul arm_rate 1000)) (log w0) 0 reported ->
      let khz :=
        fst (bcm2835_cpufreq_set_clock P cur_rate arm_rate w0) in
      khz = to_u32 reported ÷ 1000 /\
      1000 * khz <= to_u32 reported < 1000 * khz + 1000).
Proof.
  intros Hreach target hz w'.
  assert (Hrange : 0 <= target <= max_khz).
  { pose proof (reachable_rates_in_range w Hreach) as [Hlo Hhi].
    subst target. now destruct (state =? 0). }
  assert (Htrunc : forall reported,
             let khz := khz_of 0 reported in
             khz = to_u32 reported ÷ 1000 /\
             1000 * khz <= to_u32 reported < 1000 * khz + 1000).
  { intros reported khz. subst khz.
    change (khz_of 0 reported) with (to_u32 reported / 1000).
    pose proof (to_u32_range reported) as Hr.
    destruct (khz_truncates (to_u32 reported) (proj1 Hr)) as [Hq Hb].
    rewrite <- Hq. now split. }
  split; [|split; [|split; [|split; [|split]]]].
  - intros k. apply to_u32_int_mul.
  - subst w'. rewrite target_index_run. cbn [snd].
    rewrite set_clock_run. cbn [snd log extend]. fold target.
    now rewrite (hz_of_khz_exact target Hrange).
  - subst hz. rewrite modulus_eq. unfold max_khz in Hrange. lia.
  - exists target. reflexivity.
  - intros tag w0 reported Hrep khz. subst khz.
    rewrite (get_clock_answered P tag w0 0 reported Hrep). apply Htrunc.
  - intros cur_rate arm_rate w0 reported Hrep khz. subst khz.
    rewrite (set_clock_answered P cur_rate arm_rate w0 0 reported Hrep).
    apply Htrunc.
Qed.

End Conversion.

(** After [init] on the stock board, index 1 sends 1500000 * 1000 Hz; the
    odd board's 1200000999 Hz reads as 1200000 kHz. *)
Lemma rate_conversions_witness :
  reachable (K := linux_headers) ready /\
  log (snd (bcm2835_cpufreq_driver_target_index (K := linux_headers)
              stock fresh_policy 1 ready)) =
  log ready ++
  channel_events stock RPI_FIRMWARE_SET_CLOCK_RATE VCMSG_ID_ARM_CLOCK
    (1500000 * 1000) (log ready) /\
  (let khz :=
     fst (bcm2835_cpufreq_get_clock odd RPI_FIRMWARE_GET_CLOCK_RATE ready) in
   khz = to_u32 1200000999 ÷ 1000 /\
   1000 * khz <= to_u32 1200000999 < 1000 * khz + 1000).
Proof.
  assert (Hw : reachable (K := linux_headers) ready)
    by (apply reachable_init, reachable_boot).
  split; [exact Hw|]. split.
  - exact (proj1 (proj2 (rate_conversions (K := linux_headers) stock
                           fresh_policy 1 ready Hw))).
  - apply (proj1 (proj2 (proj2 (proj2 (proj2
             (rate_conversions (K := linux_headers) odd
                fresh_policy 1 ready Hw)))))
             RPI_FIRMWARE_GET_CLOCK_RATE ready 1200000999).
    repeat split.
Defined.

Example get_clock_truncates :
  fst (bcm2835_cpufreq_get_clock odd RPI_FIRMWARE_GET_CLOCK_RATE ready) =
  1200000.
Proof. reflexivity. Qed.

(** Outside the reachable states the product can wrap: a bound above
    [max_khz] would send a Hz value that is no multiple of 1000. *)
Example hz_wraps_above_max_khz :
  to_u32 (int_mul (to_int 4294968) 1000) = 704.
Proof. reflexivity. Qed.

(** ** Reading a rate while the gate blocks *)

Section BlockedGet.

Context {K : KernelHeaders} (P : platform).

(** C10. A GET request made while the gate blocks returns 0 from the
    channel without a write to [rate]; [bcm2835_cpufreq_get_clock] then
    returns the uninitialised content of [rate] divided by 1000, whatever
    firmware sits behind the mailbox and with no transaction made.  [get]
    snaps that value, and with the gate blocking both of its requests
    [init] stores two such values as its bounds. *)
Theorem blocked_get_returns_stale_rate tag w :
  let stale := stale_rate P w in
  let request := arm_request tag stale in
  get_blocked P tag w ->
  bcm2835_cpufreq_clock_property P tag VCMSG_ID_ARM_CLOCK stale w =
    (0, stale, extend w [request]) /\
  bcm2835_cpufreq_get_clock P tag w = (stale / 1000, extend w [request]) /\
  (forall f,
      bcm2835_cpufreq_get_clock (with_firmware P f) tag w =
      bcm2835_cpufreq_get_clock P tag w) /\
  (tag = RPI_FIRMWARE_GET_CLOCK_RATE ->
   forall cpu,
     fst (bcm2835_cpufreq_driver_get P cpu w) =
     if stale / 1000 <=? min_frequency w
     then min_frequency w else max_frequency w) /\
  (tag = RPI_FIRMWARE_GET_MIN_CLOCK_RATE ->
   rpi_firmware_get P (log w) = true ->
   get_blocked P RPI_FIRMWARE_GET_MAX_CLOCK_RATE (extend w [request]) ->
   forall policy,
     let w' := snd (bcm2835_cpufreq_driver_init P policy w) in
     min_frequency w' = stale / 1000 /\
     max_frequency w' = stale_rate P (extend w [request]) / 1000 /\
     transport_calls (log w') = transport_calls (log w)).
Proof.
  intros stale request Hblocked.
  split; [|split; [|split; [|split]]].
  - rewrite clock_property_run.
    now rewrite channel_result_blocked, channel_events_blocked.
  - now apply get_clock_blocked.
  - intros f. now rewrite !get_clock_blocked.
  - intros -> cpu. rewrite driver_get_run. cbn [fst].
    now rewrite get_clock_blocked.
  - intros -> Hfw Hblocked2 policy w'. subst w'.
    rewrite (init_run P policy w Hfw). cbn zeta.
    cbn [snd min_frequency max_frequency log].
    rewrite (get_clock_blocked P _ w Hblocked).
    cbn [fst snd]. fold stale. fold request.
    rewrite (get_clock_blocked P _ (extend w [request]) Hblocked2).
    cbn [fst snd log extend].
    split; [reflexivity|]. split; [reflexivity|].
    rewrite !transport_calls_app. cbn. lia.
Qed.

End BlockedGet.

(** On the gated board the stack word 0xDEADBEEF comes back as 3735928 kHz,
    with the firmware that reports 1.2 GHz and with one that is dead. *)
Lemma blocked_get_returns_stale_rate_witness :
  get_blocked gated RPI_FIRMWARE_GET_CLOCK_RATE ready /\
  bcm2835_cpufreq_get_clock gated RPI_FIRMWARE_GET_CLOCK_RATE ready =
    (3735928559 / 1000,
     extend ready [arm_request RPI_FIRMWARE_GET_CLOCK_RATE 3735928559]) /\
  bcm2835_cpufreq_get_clock (with_firmware gated dead_firmware)
    RPI_FIRMWARE_GET_CLOCK_RATE ready =
  bcm2835_cpufreq_get_clock gated RPI_FIRMWARE_GET_CLOCK_RATE ready /\
  (let w' := snd (bcm2835_cpufreq_driver_init (K := linux_headers)
                    gated fresh_policy boot) in
   min_frequency w' = 3735928559 / 1000 /\
   max_frequency w' = 3735928559 / 1000 /\
   transport_calls (log w') = transport_calls (log boot)).
Proof.
  assert (H : get_blocked gated RPI_FIRMWARE_GET_CLOCK_RATE ready)
    by reflexivity.
  assert (H0 : get_blocked gated RPI_FIRMWARE_GET_MIN_CLOCK_RATE boot)
    by reflexivity.
  split; [exact H|]. split; [|split].
  - exact (proj1 (proj2 (blocked_get_returns_stale_rate
                           (K := linux_headers) gated
                           RPI_FIRMWARE_GET_CLOCK_RATE ready H))).
  - exact (proj1 (proj2 (proj2 (blocked_get_returns_stale_rate
                                  (K := linux_headers) gated
                                  RPI_FIRMWARE_GET_CLOCK_RATE ready H)))
             dead_firmware).
  - exact (proj2 (proj2 (proj2 (proj2 (blocked_get_returns_stale_rate
                                         (K := linux_headers) gated
                                         RPI_FIRMWARE_GET_MIN_CLOCK_RATE
                                         boot H0))))
             eq_refl eq_refl eq_refl fresh_policy).
Defined.

(** With the gate blocking during [init], both bounds are the stale word;
    a later [get] on the same board answers a bound whatever the clock
    does. *)
Example init_under_blocked_gate :
  driver_state (snd (bcm2835_cpufreq_driver_init (K := linux_headers)
                       gated fresh_policy boot)) =
  (3735928, 3735928, [# 3735928; 4294967294; 0]).
Proof. reflexivity. Qed.

Example get_under_blocked_gate :
  fst (bcm2835_cpufreq_driver_get gated 0 ready) = 1500000 /\
  fst (bcm2835_cpufreq_driver_get (board true true 1 0 firmware) 0 ready) =
  600000.
Proof. split; reflexivity. Qed.

(** ** Order of the two bounds *)

Section BoundOrder.

Context {K : KernelHeaders} (P : platform).

(** C4, as the driver has it.  [init] stores the two bounds as obtained and
    neither compares nor swaps them.  When both requests pass the gate,
    [min_frequency <= max_frequency] holds after [init] exactly when the kHz
    value obtained for GET-minimum (0 on failure) is at most the one
    obtained for GET-maximum (0 on failure): always when GET-minimum fails,
    and when both succeed with rates in that order.  Whenever the bounds are
    in order, the table entries up to the terminator are non-decreasing by
    index. *)
Theorem init_bound_order policy w r1 hz1 r2 hz2 :
  rpi_firmware_get P (log w) = true ->
  get_answered P RPI_FIRMWARE_GET_MIN_CLOCK_RATE w r1 hz1 ->
  get_answered P RPI_FIRMWARE_GET_MAX_CLOCK_RATE
    (snd (bcm2835_cpufreq_get_clock P RPI_FIRMWARE_GET_MIN_CLOCK_RATE w))
    r2 hz2 ->
  let w' := snd (bcm2835_cpufreq_driver_init P policy w) in
  (min_frequency w' <= max_frequency w' <->
   khz_of r1 hz1 <= khz_of r2 hz2) /\
  (r1 <> 0 -> min_frequency w' <= max_frequency w') /\
  (r1 = 0 -> r2 = 0 -> to_u32 hz1 <= to_u32 hz2 ->
   min_frequency w' <= max_frequency w') /\
  (min_frequency w' <= max_frequency w' ->
   max_khz < CPUFREQ_TABLE_END ->
   Sorted Z.le (populated (bcm2835_freq_table w'))).
Proof.
  intros Hfw H1 H2 w'.
  destruct (init_bounds_answered P policy w r1 hz1 r2 hz2 Hfw H1 H2)
    as [Hlo Hhi].
  fold w' in Hlo, Hhi.
  pose proof (init_table_shape P policy w Hfw) as Ht.
  cbn zeta in Ht. fold w' in Ht.
  pose proof (khz_of_range r1 hz1) as R1.
  pose proof (khz_of_range r2 hz2) as R2.
  split; [|split; [|split]].
  - now rewrite Hlo, Hhi.
  - intros Hr. rewrite Hlo, Hhi. unfold khz_of at 1.
    apply Z.eqb_neq in Hr. rewrite Hr. cbn [negb]. lia.
  - intros -> -> Hle. rewrite Hlo, Hhi. unfold khz_of. cbn [Z.eqb negb].
    apply Z.div_le_mono; lia.
  - intros Hle Hend. rewrite Ht. rewrite Hlo, Hhi in *.
    destruct (khz_of r1 hz1 =? khz_of r2 hz2).
    + rewrite populated_single by lia. apply sorted_single. lia.
    + rewrite populated_pair by lia. apply sorted_pair; lia.
Qed.

End BoundOrder.

(** The stock board: 600000 <= 1500000 and the table is sorted. *)
Lemma init_bound_order_witness :
  let w' := snd (bcm2835_cpufreq_driver_init (K := linux_headers)
                   stock fresh_policy boot) in
  min_frequency w' <= max_frequency w' /\
  Sorted Z.le (populated (K := linux_headers) (bcm2835_freq_table w')).
Proof.
  intros w'.
  assert (H1 : get_answered stock RPI_FIRMWARE_GET_MIN_CLOCK_RATE boot
                 0 600000000) by (repeat split).
  assert (H2 : get_answered stock RPI_FIRMWARE_GET_MAX_CLOCK_RATE
                 (snd (bcm2835_cpufreq_get_clock stock
                         RPI_FIRMWARE_GET_MIN_CLOCK_RATE boot))
                 0 1500000000) by (repeat split).
  pose proof (init_bound_order (K := linux_headers) stock fresh_policy boot
                0 600000000 0 1500000000 eq_refl H1 H2) as H.
  fold w' in H. destruct H as [_ [_ [Hle Hsorted]]].
  assert (Hord : min_frequency w' <= max_frequency w').
  { apply Hle; [reflexivity | reflexivity | vm_compute; discriminate]. }
  split; [exact Hord|].
  apply Hsorted; [exact Hord | reflexivity].
Defined.

(** C4 as stated fails.  On the flaky board GET-minimum reports 600 MHz and
    GET-maximum fails: [init] completes with the verdict of the cpufreq
    core, [min_frequency] is 600000, [max_frequency] is 0 and the table is
    [600000, 0, TABLE_END]. *)
Lemma init_leaves_bounds_unordered :
  let out := bcm2835_cpufreq_driver_init (K := linux_headers)
               flaky fresh_policy boot in
  let w' := snd out in
  rpi_firmware_get flaky (log boot) = true /\
  fst (fst out) = 0 /\
  bcm2835_freq_table w' = [# 600000; 0; 4294967294] /\
  ~ min_frequency w' <= max_frequency w' /\
  ~ Sorted Z.le (vec_to_list (bcm2835_freq_table w')) /\
  ~ Sorted Z.le (populated (K := linux_headers) (bcm2835_freq_table w')).
Proof.
  cbn zeta. split; [reflexivity|]. split; [reflexivity|].
  split; [reflexivity|].
  split; [vm_compute; intros H; now apply H|].
  split; intros H; vm_compute in H;
    apply Sorted_inv in H; destruct H as [_ H];
    apply HdRel_inv in H; vm_compute in H; now apply H.
Qed.

(** * Further properties of the driver *)

(** ** The channel when the mailbox is reached *)

Section ChannelTransaction.

Context {K : KernelHeaders} (P : platform).

Lemma set_clock_log cur_rate arm_rate w :
  log (snd (bcm2835_cpufreq_set_clock P cur_rate arm_rate w)) =
  log w ++
  channel_events P RPI_FIRMWARE_SET_CLOCK_RATE VCMSG_ID_ARM_CLOCK
    (to_u32 (int_mul arm_rate 1000)) (log w).
Proof. rewrite set_clock_run. reflexivity. Qed.

Lemma target_index_log policy state w :
  let target := if state =? 0 then min_frequency w else max_frequency w in
  log (snd (bcm2835_cpufreq_driver_target_index P policy state w)) =
  log w ++
  channel_events P RPI_FIRMWARE_SET_CLOCK_RATE VCMSG_ID_ARM_CLOCK
    (to_u32 (int_mul (to_int target) 1000)) (log w).
Proof.
  cbn zeta. rewrite target_index_run. cbn [snd]. apply set_clock_log.
Qed.

Lemma target_in_range state w :
  rates_in_range w ->
  0 <= (if state =? 0 then min_frequency w else max_frequency w) <= max_khz.
Proof. intros [Hlo Hhi]. now destruct (state =? 0). Qed.

Lemma khz_of_zero_iff r hz :
  khz_of r hz = 0 <-> (r =? 0) && (1000 <=? to_u32 hz) = false.
Proof.
  unfold khz_of. pose proof (to_u32_range hz) as Hr.
  destruct (r =? 0); cbn [negb andb]; [|tauto].
  destruct (1000 <=? to_u32 hz) eqn:E.
  - apply Z.leb_le in E. split; [|discriminate].
    intros H0. pose proof (Z.div_str_pos (to_u32 hz) 1000). lia.
  - apply Z.leb_gt in E. split; [reflexivity|].
    intros _. apply Z.div_small. lia.
Qed.

(** X1. A request that reaches the mailbox comes back with the mailbox's
    own return code: on a non-zero code the caller's value is left as it
    was, on code 0 it becomes the packet content reduced to 32 bits.  Either
    way one transaction is logged after the request and the statics are not
    touched. *)
Theorem clock_property_transaction tag val w r hz :
  answered P tag val (log w) r hz ->
  let out := bcm2835_cpufreq_clock_property P tag VCMSG_ID_ARM_CLOCK val w in
  fst out = (if r =? 0 then (0, to_u32 hz) else (r, val)) /\
  driver_state (snd out) = driver_state w /\
  log (snd out) =
    log w ++ [arm_request tag val; Property tag (arm_packet val)].
Proof.
  intros Hans out. subst out. rewrite clock_property_run. cbn [fst snd].
  split; [|split].
  - rewrite (channel_result_answered P tag val (log w) r hz Hans).
    now destruct (r =? 0).
  - reflexivity.
  - destruct Hans as [Hgate _]. unfold blocked_at, arm_request in Hgate.
    cbn [log extend]. now rewrite channel_events_unblocked.
Qed.

(** X2. While the gate blocks, a SET makes no transaction and the channel
    hands the requested Hz value back, so [bcm2835_cpufreq_set_clock]
    returns the very rate it was asked for: in a reachable state
    [target_index] reports success for every non-zero bound and [-EINVAL]
    for a bound of 0, though the clock was not touched in either case. *)
Theorem blocked_set_echoes_target policy state w :
  reachable w ->
  let target := if state =? 0 then min_frequency w else max_frequency w in
  blocked_at P RPI_FIRMWARE_SET_CLOCK_RATE (target * 1000) (log w) = true ->
  let out := bcm2835_cpufreq_driver_target_index P policy state w in
  fst (bcm2835_cpufreq_set_clock P (to_int (cur policy)) (to_int target) w) =
    target /\
  fst out = (if target =? 0 then - EINVAL else 0) /\
  transport_calls (log (snd out)) = transport_calls (log w).
Proof.
  intros Hreach target Hgate out.
  pose proof (target_in_range state w (reachable_rates_in_range w Hreach))
    as Hrange.
  fold target in Hrange.
  unfold blocked_at, arm_request in Hgate.
  assert (Hset : fst (bcm2835_cpufreq_set_clock P (to_int (cur policy))
                        (to_int target) w) = target).
  { rewrite set_clock_run. cbn [fst].
    rewrite (hz_of_khz_exact target Hrange).
    rewrite (channel_result_blocked P _ _ _ _ Hgate). cbn [fst snd negb Z.eqb].
    apply Z.div_mul. lia. }
  split; [exact Hset|]. split.
  - subst out. rewrite target_index_run. cbn [fst]. fold target.
    now rewrite Hset.
  - subst out. rewrite target_index_log. fold target.
    rewrite (hz_of_khz_exact target Hrange).
    rewrite (channel_events_blocked P _ _ _ _ Hgate).
    rewrite transport_calls_app. cbn. lia.
Qed.

(** X3. When the SET reaches the mailbox, [target_index] succeeds exactly
    when the transaction returns code 0 and leaves a rate of at least
    1000 Hz in the packet; a failed transaction and an applied rate below
    1 kHz both give [-EINVAL]. *)
Theorem target_index_transaction policy state w r hz :
  let target := if state =? 0 then min_frequency w else max_frequency w in
  answered P RPI_FIRMWARE_SET_CLOCK_RATE
    (to_u32 (int_mul (to_int target) 1000)) (log w) r hz ->
  fst (bcm2835_cpufreq_driver_target_index P policy state w) =
  if (r =? 0) && (1000 <=? to_u32 hz) then 0 else - EINVAL.
Proof.
  intros target Hans. rewrite target_index_run. cbn [fst]. fold target.
  rewrite (set_clock_answered P _ _ w r hz Hans).
  destruct ((r =? 0) && (1000 <=? to_u32 hz)) eqn:E.
  - destruct (khz_of r hz =? 0) eqn:E0; [|reflexivity].
    apply Z.eqb_eq, khz_of_zero_iff in E0. congruence.
  - apply khz_of_zero_iff in E. now rewrite E.
Qed.

End ChannelTransaction.

(** A failing GET-maximum on the flaky board returns the mailbox's -22 and
    leaves the value 7; the stock board overwrites it with 1.5 GHz. *)
Lemma clock_property_transaction_witness :
  fst (bcm2835_cpufreq_clock_property flaky RPI_FIRMWARE_GET_MAX_CLOCK_RATE
         VCMSG_ID_ARM_CLOCK 7 ready) = (-22, 7) /\
  fst (bcm2835_cpufreq_clock_property stock RPI_FIRMWARE_GET_MAX_CLOCK_RATE
         VCMSG_ID_ARM_CLOCK 7 ready) = (0, 1500000000).
Proof.
  split.
  - apply (proj1 (clock_property_transaction flaky
                    RPI_FIRMWARE_GET_MAX_CLOCK_RATE 7 ready (-22) 7
                    ltac:(repeat split))).
  - apply (proj1 (clock_property_transaction stock
                    RPI_FIRMWARE_GET_MAX_CLOCK_RATE 7 ready 0 1500000000
                    ltac:(repeat split))).
Defined.

(** On the gated board index 1 is accepted in the ready state, and index 0
    is refused at module load, where the minimum is still 0. *)
Lemma blocked_set_echoes_target_witness :
  (fst (bcm2835_cpufreq_driver_target_index (K := linux_headers)
          gated fresh_policy 1 ready) = 0 /\
   transport_calls
     (log (snd (bcm2835_cpufreq_driver_target_index (K := linux_headers)
                  gated fresh_policy 1 ready))) =
   transport_calls (log ready)) /\
  fst (bcm2835_cpufreq_driver_target_index (K := linux_headers)
         gated fresh_policy 0 boot) = - 22.
Proof.
  split.
  - apply (proj2 (blocked_set_echoes_target (K := linux_headers) gated
                    fresh_policy 1 ready
                    ltac:(apply reachable_init, reachable_boot) eq_refl)).
  - apply (proj1 (proj2 (blocked_set_echoes_target (K := linux_headers) gated
                           fresh_policy 0 boot reachable_boot eq_refl))).
Defined.

(** The stalled board applies 999 Hz: the transaction succeeds and
    [target_index] still returns [-EINVAL]. *)
Lemma target_index_transaction_witness :
  fst (bcm2835_cpufreq_driver_target_index (K := linux_headers)
         stalled fresh_policy 1 ready) = - 22 /\
  fst (bcm2835_cpufreq_driver_target_index (K := linux_headers)
         stock fresh_policy 1 ready) = 0.
Proof.
  split.
  - apply (target_index_transaction (K := linux_headers) stalled
             fresh_policy 1 ready 0 999).
    repeat split.
  - apply (target_index_transaction (K := linux_headers) stock
             fresh_policy 1 ready 0 1500000000).
    repeat split.
Defined.

(** ** What [init] leaves behind on any platform *)

Section InitAnyPlatform.

Context {K : KernelHeaders} (P : platform).

Lemma get_clock_log_only tag w v :
  log w = log v ->
  fst (bcm2835_cpufreq_get_clock P tag w) =
    fst (bcm2835_cpufreq_get_clock P tag v) /\
  log (snd (bcm2835_cpufreq_get_clock P tag w)) =
    log (snd (bcm2835_cpufreq_get_clock P tag v)).
Proof.
  intros Hlog. rewrite !get_clock_run. unfold stale_rate.
  cbn [fst snd log extend]. now rewrite Hlog.
Qed.



(** X4. Whenever [init] gets past the firmware check, with the gate open or
    blocking and with the transactions succeeding or failing, both bounds
    end up between 0 and 4294967 kHz and a walk of the table visits
    [min, TABLE_END] when the bounds are equal and [min, max, TABLE_END]
    otherwise, whatever the table held before. *)
Theorem init_table_walk policy w :
  rpi_firmware_get P (log w) = true ->
  max_khz < CPUFREQ_TABLE_END ->
  let w' := snd (bcm2835_cpufreq_driver_init P policy w) in
  rates_in_range w' /\
  populated (bcm2835_freq_table w') =
    if min_frequency w' =? max_frequency w'
    then [min_frequency w'; CPUFREQ_TABLE_END]
    else [min_frequency w'; max_frequency w'; CPUFREQ_TABLE_END].
Proof.
  intros Hfw Hend w'.
  assert (Hr : rates_in_range w').
  { destruct (init_bounds P policy w Hfw) as [H1 H2]. cbn zeta in H1, H2.
    fold w' in H1, H2. unfold rates_in_range. rewrite H1, H2.
    split; apply get_clock_range. }
  split; [exact Hr|].
  pose proof (init_table_shape P policy w Hfw) as Ht. cbn zeta in Ht.
  fold w' in Ht. rewrite Ht. destruct Hr as [Hlo Hhi].
  destruct (min_frequency w' =? max_frequency w').
  - apply populated_single. lia.
  - apply populated_pair; lia.
Qed.


(** X8. A repeated [init] forgets the bounds it had: from two states with
    the same log it stores the same bounds and the same slots 0 and 1,
    whatever the statics held.  Only slot 2 may carry over, and only when
    the new bounds are equal. *)
Theorem init_overwrites_bounds policy w v :
  log w = log v ->
  rpi_firmware_get P (log w) = true ->
  let w' := snd (bcm2835_cpufreq_driver_init P policy w) in
  let v' := snd (bcm2835_cpufreq_driver_init P policy v) in
  min_frequency w' = min_frequency v' /\
  max_frequency w' = max_frequency v' /\
  bcm2835_freq_table w' !!! 0%fin = bcm2835_freq_table v' !!! 0%fin /\
  bcm2835_freq_table w' !!! 1%fin = bcm2835_freq_table v' !!! 1%fin /\
  log w' = log v' /\
  (min_frequency w' <> max_frequency w' ->
   bcm2835_freq_table w' = bcm2835_freq_table v') /\
  (min_frequency w' = max_frequency w' ->
   bcm2835_freq_table w' !!! 2%fin = bcm2835_freq_table w !!! 2%fin).
Proof.
  intros Hlog Hfw w' v'.
  assert (Hfv : rpi_firmware_get P (log v) = true) by now rewrite <- Hlog.
  pose proof (init_table_shape P policy w Hfw) as Htw.
  pose proof (init_table_shape P policy v Hfv) as Htv.
  cbn zeta in Htw, Htv. fold w' in Htw. fold v' in Htv.
  destruct (init_bounds P policy w Hfw) as [Hw1 Hw2].
  destruct (init_bounds P policy v Hfv) as [Hv1 Hv2].
  cbn zeta in Hw1, Hw2, Hv1, Hv2. fold w' in Hw1, Hw2. fold v' in Hv1, Hv2.
  destruct (get_clock_log_only RPI_FIRMWARE_GET_MIN_CLOCK_RATE w v Hlog)
    as [Hmin Hlog1].
  destruct (get_clock_log_only RPI_FIRMWARE_GET_MAX_CLOCK_RATE _ _ Hlog1)
    as [Hmax Hlog2].
  assert (Elo : min_frequency w' = min_frequency v') by congruence.
  assert (Ehi : max_frequency w' = max_frequency v') by congruence.
  assert (Elog : log w' = log v').
  { subst w' v'. rewrite (init_run P policy w Hfw), (init_run P policy v Hfv).
    exact Hlog2. }
  split; [exact Elo|]. split; [exact Ehi|].
  rewrite Htw, Htv, <- Elo, <- Ehi.
  destruct (min_frequency w' =? max_frequency w') eqn:E.
  - apply Z.eqb_eq in E. repeat split; try reflexivity; try exact Elog.
    intros Hne. contradiction.
  - repeat split; try reflexivity; try exact Elog.
    intros Heq. apply Z.eqb_neq in E. contradiction.
Qed.

End InitAnyPlatform.

(** On the gated board the walk is [3735928, TABLE_END]; on the flaky board
    it is [600000, 0, TABLE_END]. *)
Lemma init_table_walk_witness :
  populated (K := linux_headers)
    (bcm2835_freq_table
       (snd (bcm2835_cpufreq_driver_init (K := linux_headers)
               gated fresh_policy boot))) = [3735928; 4294967294] /\
  populated (K := linux_headers)
    (bcm2835_freq_table
       (snd (bcm2835_cpufreq_driver_init (K := linux_headers)
               flaky fresh_policy ready))) = [600000; 0; 4294967294].
Proof.
  split.
  - apply (proj2 (init_table_walk (K := linux_headers) gated fresh_policy
                    boot eq_refl eq_refl)).
  - apply (proj2 (init_table_walk (K := linux_headers) flaky fresh_policy
                    ready eq_refl eq_refl)).
Defined.


(** Re-initialising on the single-rate odd board, from the ready state and
    from a state with the same log and other statics: same bounds, and
    slot 2 is the one each state had. *)
Lemma init_overwrites_bounds_witness :
  let v := {| min_frequency := 1; max_frequency := 2;
              bcm2835_freq_table := [# 3; 4; 5]; log := log ready |} in
  let w' := snd (bcm2835_cpufreq_driver_init (K := linux_headers)
                   odd fresh_policy ready) in
  let v' := snd (bcm2835_cpufreq_driver_init (K := linux_headers)
                   odd fresh_policy v) in
  min_frequency w' = min_frequency v' /\
  max_frequency w' = max_frequency v' /\
  bcm2835_freq_table w' !!! 2%fin = bcm2835_freq_table ready !!! 2%fin.
Proof.
  intros v w' v'.
  destruct (init_overwrites_bounds (K := linux_headers) odd fresh_policy
              ready v eq_refl eq_refl)
    as (Hlo & Hhi & _ & _ & _ & _ & Hslot).
  split; [exact Hlo|]. split; [exact Hhi|].
  apply Hslot. reflexivity.
Defined.

Example reinit_keeps_stale_terminator :
  bcm2835_freq_table
    (snd (bcm2835_cpufreq_driver_init (K := linux_headers)
            odd fresh_policy ready)) =
  [# 1200000; 4294967294; 4294967294].
Proof. reflexivity. Qed.

(** ** Entry points in sequence *)

Section Sequences.

Context {K : KernelHeaders} (P : platform).

Lemma target_index_bounds policy state w :
  min_frequency (snd (bcm2835_cpufreq_driver_target_index P policy state w)) =
    min_frequency w /\
  max_frequency (snd (bcm2835_cpufreq_driver_target_index P policy state w)) =
    max_frequency w.
Proof.
  pose proof (target_index_state P policy state w) as H.
  unfold driver_state in H. injection H as H1 H2 _. now split.
Qed.

Lemma rounds_down x :
  0 <= x ->
  let sent := x / 1000 * 1000 in
  x - 1000 < sent <= x /\ (sent = x <-> (1000 | x)).
Proof.
  intros Hx sent.
  pose proof (Z.div_mod x 1000 ltac:(lia)) as Hdm.
  pose proof (Z.mod_pos_bound x 1000 ltac:(lia)) as Hm.
  split; [subst sent; lia|]. split.
  - intros H. exists (x / 1000). subst sent. lia.
  - intros [q Hq]. subst sent. rewrite Hq, Z.div_mul; lia.
Qed.

(** X5. Set, then read back.  In a reachable state whose bounds are in
    order, if the firmware then reports the rate [target_index] has just
    sent, [get] answers the bound that was selected.  With the bounds out
    of order this fails for a non-zero index: [get] answers
    [min_frequency]. *)
Theorem set_then_get policy cpu state w :
  reachable w ->
  let target := if state =? 0 then min_frequency w else max_frequency w in
  let w1 := snd (bcm2835_cpufreq_driver_target_index P policy state w) in
  get_answered P RPI_FIRMWARE_GET_CLOCK_RATE w1 0 (target * 1000) ->
  let answer := fst (bcm2835_cpufreq_driver_get P cpu w1) in
  (min_frequency w <= max_frequency w -> answer = target) /\
  (max_frequency w < min_frequency w -> answer = min_frequency w).
Proof.
  intros Hreach target w1 Hans answer.
  pose proof (reachable_rates_in_range w Hreach) as Hr.
  pose proof (target_in_range state w Hr) as Hrange. fold target in Hrange.
  destruct (target_index_bounds policy state w) as [Hlo Hhi].
  fold w1 in Hlo, Hhi.
  assert (Hanswer : answer =
                    if target <=? min_frequency w
                    then min_frequency w else max_frequency w).
  { subst answer. rewrite driver_get_run. cbn [fst].
    rewrite (get_clock_answered P _ w1 0 (target * 1000) Hans).
    change (khz_of 0 (target * 1000)) with (to_u32 (target * 1000) / 1000).
    rewrite to_u32_small
      by (rewrite modulus_eq; unfold max_khz in Hrange; lia).
    rewrite Z.div_mul by lia. now rewrite Hlo, Hhi. }
  rewrite Hanswer. subst target. split; intros Hord.
  - destruct (state =? 0).
    + now rewrite Z.leb_refl.
    + destruct (max_frequency w <=? min_frequency w) eqn:E; [|reflexivity].
      apply Z.leb_le in E. lia.
  - destruct (state =? 0).
    + now rewrite Z.leb_refl.
    + destruct (max_frequency w <=? min_frequency w) eqn:E; [reflexivity|].
      apply Z.leb_gt in E. lia.
Qed.

(** X6. Initialise, then set.  The rate [target_index] sends after [init]
    is the rate the firmware reported for that bound, reduced to 32 bits
    and rounded down to a multiple of 1000 Hz: it is the reported rate
    itself exactly when that is a multiple of 1000, and otherwise falls
    short of it by less than 1000 Hz. *)
Theorem init_then_target_rounds_down policy state w hz_min hz_max :
  rpi_firmware_get P (log w) = true ->
  get_answered P RPI_FIRMWARE_GET_MIN_CLOCK_RATE w 0 hz_min ->
  get_answered P RPI_FIRMWARE_GET_MAX_CLOCK_RATE
    (snd (bcm2835_cpufreq_get_clock P RPI_FIRMWARE_GET_MIN_CLOCK_RATE w))
    0 hz_max ->
  let w' := snd (bcm2835_cpufreq_driver_init P policy w) in
  let reported := to_u32 (if state =? 0 then hz_min else hz_max) in
  let sent := reported / 1000 * 1000 in
  log (snd (bcm2835_cpufreq_driver_target_index P policy state w')) =
    log w' ++
    channel_events P RPI_FIRMWARE_SET_CLOCK_RATE VCMSG_ID_ARM_CLOCK sent
      (log w') /\
  reported - 1000 < sent <= reported /\
  (sent = reported <-> (1000 | reported)).
Proof.
  intros Hfw Hmin Hmax w' reported sent.
  destruct (init_bounds_answered P policy w 0 hz_min 0 hz_max Hfw Hmin Hmax)
    as [Hlo Hhi].
  fold w' in Hlo, Hhi.
  change (khz_of 0 hz_min) with (to_u32 hz_min / 1000) in Hlo.
  change (khz_of 0 hz_max) with (to_u32 hz_max / 1000) in Hhi.
  assert (Htarget : (if state =? 0 then min_frequency w'
                     else max_frequency w') = reported / 1000).
  { subst reported. rewrite Hlo, Hhi. now destruct (state =? 0). }
  assert (Hrep : 0 <= reported < modulus).
  { subst reported. apply to_u32_range. }
  split.
  - rewrite target_index_log. rewrite Htarget.
    rewrite hz_of_khz_exact; [reflexivity|].
    subst reported. apply khz_of_hz_range.
  - apply rounds_down. lia.
Qed.

(** X9. For the whole life of the driver both bounds stay between 0 and
    4294967 kHz, and so does every answer of [get], on any platform. *)
Theorem reachable_rates_bounded w cpu :
  reachable w ->
  rates_in_range w /\
  0 <= fst (bcm2835_cpufreq_driver_get P cpu w) <= max_khz.
Proof.
  intros Hreach. pose proof (reachable_rates_in_range w Hreach) as Hr.
  split; [exact Hr|].
  rewrite driver_get_run. cbn [fst]. destruct Hr as [Hlo Hhi].
  now destruct (_ <=? _).
Qed.

(** X10. [get] can be repeated: two calls in a row that find the firmware
    reporting the same rate give the same answer, and a call never changes
    what a later call compares against. *)
Theorem driver_get_repeatable cpu w hz :
  let w1 := snd (bcm2835_cpufreq_driver_get P cpu w) in
  get_answered P RPI_FIRMWARE_GET_CLOCK_RATE w 0 hz ->
  get_answered P RPI_FIRMWARE_GET_CLOCK_RATE w1 0 hz ->
  fst (bcm2835_cpufreq_driver_get P cpu w1) =
    fst (bcm2835_cpufreq_driver_get P cpu w) /\
  driver_state (snd (bcm2835_cpufreq_driver_get P cpu w1)) = driver_state w.
Proof.
  intros w1 H0 H1.
  pose proof (driver_get_state P cpu w) as Hs. fold w1 in Hs.
  split.
  - rewrite !driver_get_run. cbn [fst].
    rewrite (get_clock_answered P _ w 0 hz H0).
    rewrite (get_clock_answered P _ w1 0 hz H1).
    unfold driver_state in Hs. injection Hs as -> -> _. reflexivity.
  - now rewrite driver_get_state.
Qed.

End Sequences.

(** The tracking board runs at what it was set to: after index 1, [get]
    answers 1500000; after index 0, 600000. *)
Lemma set_then_get_witness :
  fst (bcm2835_cpufreq_driver_get tracking 0
         (snd (bcm2835_cpufreq_driver_target_index (K := linux_headers)
                 tracking fresh_policy 1 ready))) = 1500000 /\
  fst (bcm2835_cpufreq_driver_get tracking 0
         (snd (bcm2835_cpufreq_driver_target_index (K := linux_headers)
                 tracking fresh_policy 0 ready))) = 600000.
Proof.
  assert (Hw : reachable (K := linux_headers) ready)
    by (apply reachable_init, reachable_boot).
  split.
  - apply (proj1 (set_then_get (K := linux_headers) tracking fresh_policy 0 1
                    ready Hw ltac:(repeat split))).
    vm_compute. discriminate.
  - apply (proj1 (set_then_get (K := linux_headers) tracking fresh_policy 0 0
                    ready Hw ltac:(repeat split))).
    vm_compute. discriminate.
Defined.

(** With the bounds out of order (the flaky board: 600000 and 0) a
    firmware at the requested 0 Hz makes [get] answer 600000. *)
Example set_then_get_out_of_order :
  let w := snd (bcm2835_cpufreq_driver_init (K := linux_headers)
                  flaky fresh_policy boot) in
  let zero := board false true 0 0 (fun _ _ p => reply 0 0 p) in
  fst (bcm2835_cpufreq_driver_get zero 0
         (snd (bcm2835_cpufreq_driver_target_index (K := linux_headers)
                 zero fresh_policy 1 w))) = 600000.
Proof. reflexivity. Qed.

(** The odd board reports 1200000999 Hz for both bounds; index 0 then sends
    1200000000 Hz. *)
Lemma init_then_target_rounds_down_witness :
  log (snd (bcm2835_cpufreq_driver_target_index (K := linux_headers)
              odd fresh_policy 0 odd_ready)) =
  log odd_ready ++
  channel_events odd RPI_FIRMWARE_SET_CLOCK_RATE VCMSG_ID_ARM_CLOCK
    1200000000 (log odd_ready).
Proof.
  apply (proj1 (init_then_target_rounds_down (K := linux_headers) odd
                  fresh_policy 0 boot 1200000999 1200000999 eq_refl
                  ltac:(repeat split) ltac:(repeat split))).
Defined.

Lemma reachable_rates_bounded_witness :
  reachable (K := linux_headers) ready /\
  0 <= fst (bcm2835_cpufreq_driver_get gated 0 ready) <= max_khz.
Proof.
  assert (Hw : reachable (K := linux_headers) ready)
    by (apply reachable_init, reachable_boot).
  split; [exact Hw|].
  apply (proj2 (reachable_rates_bounded (K := linux_headers) gated ready 0 Hw)).
Defined.

Lemma driver_get_repeatable_witness :
  fst (bcm2835_cpufreq_driver_get stock 0
         (snd (bcm2835_cpufreq_driver_get stock 0 ready))) =
  fst (bcm2835_cpufreq_driver_get stock 0 ready).
Proof.
  apply (proj1 (driver_get_repeatable stock 0 ready 1200000000
                  ltac:(repeat split) ltac:(repeat split))).
Defined.
